(** * calendar-kit: event layout, zoom and page navigation

    A shallow embedding of [src/CalendarContainer.tsx] (the container's
    imperative handle: page navigation, zoom, hit testing) and of the
    [EventItem] component that positions one packed event inside the
    time grid.

    Conventions of the embedding:
    - a JavaScript [number] that carries a length, a duration, a scale or
      a layout slot is an exact rational ([Q], compared with [==]); NaN,
      the infinities and rounding are not represented, so a quotient
      whose divisor is zero has no counterpart here;
    - millisecond timestamps and array positions, which the code only
      ever produces as integers, are [Z];
    - [Math.floor] of a quotient of two integers is [Z.div];
    - a [useRef] cell or shared value is a field of an explicit state
      record, and [scrollTo] is an entry of an effect log;
    - [withTiming v] animates towards [v]; the embedding keeps the
      target [v]. *)

From Stdlib Require Import QArith Qminmax Qround Lqa ZArith Lia String.
From stdpp Require Import gmap strings list.

(** ** EventItem: the rectangle of one packed event *)

Module EventItem.
Local Open Scope Q_scope.

(** [MILLISECONDS_IN_DAY] is imported from [../constants]; its value is
    the one the name states. *)
Definition MILLISECONDS_IN_DAY : Z := 86400000.

(** [PackedEvent._internal]; [startMinutes] may be absent (the
    destructuring defaults it to 0), [eventStartUnix] is the name the
    component binds [_internal.startUnix] to. *)
Record Internal := mkInternal {
  duration : Q;
  startMinutes : option Q;
  total : Q;
  index : Q;
  columnSpan : Q;
  eventStartUnix : Z
}.

(** The values read from [useBody()]. *)
Record Body := mkBody {
  minuteHeight : Q;
  columnWidthAnim : Q;
  start : Q;
  end_ : Q;
  rightEdgeSpacing : Q;
  overlapEventsSpacing : Q
}.

Record VisibleDate := mkVisibleDate { vd_diffDays : Z; vd_unix : Z }.

(** [EventItemProps], layout part. [visibleDates] is keyed by the
    timestamp; every stored value is an object, hence truthy. *)
Record Props := mkProps {
  event : Internal;
  startUnix : Z;
  visibleDates : gmap Z VisibleDate
}.

Record Data := mkData {
  totalDuration : Q;
  newStart : Q;
  diffDays : Z
}.

(** [for (let i = from; i < stop; i += MILLISECONDS_IN_DAY) acc = body i acc] *)
Fixpoint for_days (fuel : nat) (i stop : Z) (body : Z -> Z -> Z) (acc : Z) : Z :=
  match fuel with
  | O => acc
  | S fuel' =>
      if (i <? stop)%Z
      then for_days fuel' (i + MILLISECONDS_IN_DAY)%Z stop body (body i acc)
      else acc
  end.

(** Number of times the guard [i < stop] holds when starting at [from]. *)
Definition day_steps (from stop : Z) : nat :=
  Z.to_nat ((stop - from + MILLISECONDS_IN_DAY - 1) / MILLISECONDS_IN_DAY).

(** [if (!visibleDates[i]) diffDays += step] *)
Definition skip_hidden (vd : gmap Z VisibleDate) (step : Z) (i acc : Z) : Z :=
  match vd !! i with
  | None => (acc + step)%Z
  | Some _ => acc
  end.

(** The [useMemo] that yields [data]. *)
Definition data (b : Body) (p : Props) : Data :=
  let e := event p in
  let startMinutes := default 0 (startMinutes e) in
  let maxDuration := end_ b - start b in
  let newStart := startMinutes - start b in
  let totalDuration := Qmin (duration e) maxDuration in
  let '(totalDuration, newStart) :=
    if Qlt_le_dec newStart 0
    then (totalDuration + newStart, 0)
    else (totalDuration, newStart) in
  let diffDays :=
    ((eventStartUnix e - startUnix p) / MILLISECONDS_IN_DAY)%Z in
  let diffDays :=
    if (eventStartUnix e <? startUnix p)%Z
    then for_days (day_steps (eventStartUnix e) (startUnix p))
           (eventStartUnix e) (startUnix p)
           (skip_hidden (visibleDates p) 1) diffDays
    else for_days (day_steps (startUnix p) (eventStartUnix e))
           (startUnix p) (eventStartUnix e)
           (skip_hidden (visibleDates p) (-1)) diffDays in
  {| totalDuration := totalDuration; newStart := newStart; diffDays := diffDays |}.

Definition eventHeight (b : Body) (p : Props) : Q :=
  totalDuration (data b p) * minuteHeight b.

Definition eventWidth (b : Body) (p : Props) : Q :=
  let e := event p in
  let totalColumns := total e - columnSpan e in
  let totalOverlap := totalColumns * overlapEventsSpacing b in
  let totalWidth := columnWidthAnim b - rightEdgeSpacing b - totalOverlap in
  (totalWidth / total e) * columnSpan e.

Definition eventPosX (b : Body) (p : Props) : Q :=
  let left := inject_Z (diffDays (data b p)) * columnWidthAnim b in
  left + (eventWidth b p + overlapEventsSpacing b) * index (event p).

Definition top (b : Body) (p : Props) : Q :=
  newStart (data b p) * minuteHeight b.

Record Style := mkStyle {
  st_height : Q;
  st_width : Q;
  st_left : Q;
  st_top : Q
}.

Definition animView (b : Body) (p : Props) : Style :=
  {| st_height := eventHeight b p;
     st_width := eventWidth b p;
     st_left := eventPosX b p + 1;
     st_top := top b p |}.

(** Pixels of the day grid an event paints, horizontally: from its left
    edge up to, not including, its right edge. *)
Definition covers (b : Body) (p : Props) (x : Q) : Prop :=
  eventPosX b p <= x /\ x < eventPosX b p + eventWidth b p.

(** The same extent with both edges included. *)
Definition covers_closed (b : Body) (p : Props) (x : Q) : Prop :=
  eventPosX b p <= x /\ x <= eventPosX b p + eventWidth b p.

(** Left edge of the day column an event is drawn in. *)
Definition columnLeft (b : Body) (p : Props) : Q :=
  inject_Z (diffDays (data b p)) * columnWidthAnim b.

Definition is_integer (q : Q) : Prop := q == inject_Z (Qfloor q).

(** A slot of a group of [t] columns: an integer in [0 .. t-1]. *)
Definition is_slot (t q : Q) : Prop :=
  is_integer q /\ 0 <= q /\ q <= t - 1.

(** The inputs the layout is said to depend on: every field of
    [_internal], [start], [end], [startUnix], [visibleDates], the column
    width and the two spacings. [minuteHeight] is left out on purpose. *)
Definition same_listed_inputs (b1 : Body) (p1 : Props) (b2 : Body) (p2 : Props) : Prop :=
  duration (event p1) == duration (event p2) /\
  default 0 (startMinutes (event p1)) == default 0 (startMinutes (event p2)) /\
  total (event p1) == total (event p2) /\
  index (event p1) == index (event p2) /\
  columnSpan (event p1) == columnSpan (event p2) /\
  eventStartUnix (event p1) = eventStartUnix (event p2) /\
  start b1 == start b2 /\
  end_ b1 == end_ b2 /\
  startUnix p1 = startUnix p2 /\
  visibleDates p1 = visibleDates p2 /\
  columnWidthAnim b1 == columnWidthAnim b2 /\
  rightEdgeSpacing b1 == rightEdgeSpacing b2 /\
  overlapEventsSpacing b1 == overlapEventsSpacing b2.


(** *** A small day used in the examples below *)

Definition sample_body : Body :=
  {| minuteHeight := 1; columnWidthAnim := 100; start := 0; end_ := 1440;
     rightEdgeSpacing := 1; overlapEventsSpacing := 1 |}.

(** The same body after zooming in: only [minuteHeight] differs. *)
Definition zoomed_body : Body :=
  {| minuteHeight := 2; columnWidthAnim := 100; start := 0; end_ := 1440;
     rightEdgeSpacing := 1; overlapEventsSpacing := 1 |}.

(** A column of 10 with a right edge spacing of 100 and no gap between
    neighbours. *)
Definition narrow_body : Body :=
  {| minuteHeight := 1; columnWidthAnim := 10; start := 0; end_ := 1440;
     rightEdgeSpacing := 100; overlapEventsSpacing := 0 |}.

(** A grid that starts at 08:00. *)
Definition morning_body : Body :=
  {| minuteHeight := 1; columnWidthAnim := 100; start := 480; end_ := 1440;
     rightEdgeSpacing := 1; overlapEventsSpacing := 1 |}.

(** Monday and Tuesday are shown, Wednesday is hidden, Thursday is shown. *)
Definition sample_visibleDates : gmap Z VisibleDate :=
  {[ 0%Z := mkVisibleDate 0 0;
     86400000%Z := mkVisibleDate 1 86400000;
     259200000%Z := mkVisibleDate 2 259200000 ]}.

(** A one hour event at 10:00 on the first day, in slot [i] of [t]. *)
Definition sample_event (t i : Q) : Props :=
  {| event := {| duration := 60; startMinutes := Some 600; total := t;
                 index := i; columnSpan := 1; eventStartUnix := 0 |};
     startUnix := 0;
     visibleDates := sample_visibleDates |}.

Definition sample_group : list Props := [sample_event 2 0; sample_event 2 1].

(** Two hours from 07:00, on Thursday. *)
Definition early_event : Props :=
  {| event := {| duration := 120; startMinutes := Some 420; total := 1;
                 index := 0; columnSpan := 1; eventStartUnix := 259200000 |};
     startUnix := 0;
     visibleDates := sample_visibleDates |}.

End EventItem.

(** ** CalendarContainer: day count, navigation, zoom, hit testing *)

Module CalendarContainer.
Local Open Scope Q_scope.

(** *** Outcome of a call that may throw *)

Inductive completion (A : Type) : Type :=
| Normal (a : A)
| Throw (message : string).
Arguments Normal {A} a.
Arguments Throw {A} message.

(** *** The lists that can be scrolled, and the scroll effect *)

Inductive ListRef := verticalListRef | dayBarListRef | gridListRef.

(** [scrollTo(ref, x, y, animated)] *)
Record ScrollTo := mkScrollTo {
  sc_ref : ListRef;
  sc_x : Q;
  sc_y : Q;
  sc_animated : bool
}.

(** [ScrollType] of [./constants]; only [calendarGrid] is assigned here. *)
Inductive ScrollType := dayBar | calendarGrid.

(** *** Day count (top of the render function) *)

Record Days := mkDays {
  daysToShow : Z;
  numberOfDays : Q;
  isSingleDay : bool;
  columns : Z
}.

(** The guard on [numberOfDays] and the derived day counts.
    [initialNumberOfDays] is the [numberOfDays] prop (default 7);
    [hideWeekDays] is the state cell, initialised with
    [initialHideWeekDays ?? []]. *)
Definition render_days (initialNumberOfDays : option Q) (hideWeekDays : list Z)
  : completion Days :=
  let initialNumberOfDays := default 7 initialNumberOfDays in
  if Qlt_le_dec 7 initialNumberOfDays
  then Throw "The maximum number of days is 7"
  else
    let hideWeekDaysCount := Z.of_nat (length hideWeekDays) in
    let daysToShow := (7 - hideWeekDaysCount)%Z in
    let numberOfDays :=
      if Qlt_le_dec (inject_Z daysToShow) initialNumberOfDays
      then inject_Z daysToShow
      else initialNumberOfDays in
    let isSingleDay := Qeq_bool numberOfDays 1 in
    let columns := if isSingleDay then 1%Z else daysToShow in
    Normal {| daysToShow := daysToShow; numberOfDays := numberOfDays;
              isSingleDay := isSingleDay; columns := columns |}.

(** *** What the callbacks close over *)

Record Env := mkEnv {
  days : Days;
  scrollByDay : bool;
  columnWidth : Q;
  calendarGridWidth : Q;
  minuteHeight : Q;
  start : Q;
  visibleDatesArray : list Z;
  (** [calendarListRef.current?.isScrollable]; [None] while the ref is null *)
  calendarListRef : option (Q -> Q -> bool)
}.

(** The [useRef] cells navigation reads and writes. *)
Record Refs := mkRefs {
  triggerDateChanged : option Z;
  scrollType : ScrollType;
  visibleDateUnix : Z
}.

(** Truthiness of an optional timestamp: [undefined] and [0] are falsy. *)
Definition truthy (d : option Z) : bool :=
  match d with
  | Some v => negb (v =? 0)%Z
  | None => false
  end.

(** [Array.prototype.indexOf]: first position, or -1. *)
Fixpoint indexOf_from (l : list Z) (x : Z) (i : Z) : Z :=
  match l with
  | [] => (-1)%Z
  | y :: l' => if (y =? x)%Z then i else indexOf_from l' x (i + 1)%Z
  end.

Definition indexOf (l : list Z) (x : Z) : Z := indexOf_from l x 0.

(** [l[i]]: [undefined] outside [0 .. length-1]. *)
Definition at_index (l : list Z) (i : Z) : option Z :=
  if (i <? 0)%Z then None else l !! Z.to_nat i.

Definition isScrollable (env : Env) (offset : Q) : bool :=
  match calendarListRef env with
  | Some f => f offset (numberOfDays (days env))
  | None => false
  end.

Definition colWidth (env : Env) : Q :=
  if isSingleDay (days env) then calendarGridWidth env else columnWidth env.

(** [pageIndex * (columnWidth * columns)], with
    [pageIndex = Math.floor(dayIndex / columns)]. *)
Definition pageOffset (env : Env) (dayIndex : Z) : Q :=
  let pageIndex := (dayIndex / columns (days env))%Z in
  inject_Z pageIndex * (columnWidth env * inject_Z (columns (days env))).

(** What both callbacks do once the target is known: give up and clear
    [triggerDateChanged], or record the target and scroll. *)
Definition scrollToPage (env : Env) (animated : bool) (r : Refs)
    (nextOffset : Q) (nextVisibleDayIndex : Z) : Refs * list ScrollTo :=
  let isScrollable := isScrollable env nextOffset in
  let nextDateUnix := at_index (visibleDatesArray env) nextVisibleDayIndex in
  if negb (truthy nextDateUnix) || negb isScrollable
  then ({| triggerDateChanged := None; scrollType := scrollType r;
           visibleDateUnix := visibleDateUnix r |}, [])
  else ({| triggerDateChanged := nextDateUnix; scrollType := calendarGrid;
           visibleDateUnix := visibleDateUnix r |},
        [ {| sc_ref := gridListRef; sc_x := nextOffset; sc_y := 0;
             sc_animated := animated |} ]).

(** [nextVisibleDayIndex] of [goToNextPage]. *)
Definition nextIndex (env : Env) (forceScrollByDay : bool) (currentIndex : Z) : Z :=
  if isSingleDay (days env) || forceScrollByDay || scrollByDay env
  then (currentIndex + 1)%Z
  else (currentIndex + columns (days env))%Z.

(** [nextVisibleDayIndex] of [goToPrevPage]. *)
Definition prevIndex (env : Env) (forceScrollByDay : bool) (currentIndex : Z) : Z :=
  if isSingleDay (days env) || forceScrollByDay || scrollByDay env
  then Z.max (currentIndex - 1) 0
  else Z.max (currentIndex - columns (days env)) 0.

(** [nextOffset] of either callback, for the target position. *)
Definition nextOffset (env : Env) (forceScrollByDay : bool) (nextVisibleDayIndex : Z) : Q :=
  if isSingleDay (days env) || forceScrollByDay || scrollByDay env
  then inject_Z nextVisibleDayIndex * colWidth env
  else pageOffset env nextVisibleDayIndex.

Definition goToNextPage (env : Env) (animated forceScrollByDay : option bool)
    (r : Refs) : Refs * list ScrollTo :=
  let animated := default true animated in
  let forceScrollByDay := default false forceScrollByDay in
  if truthy (triggerDateChanged r) then (r, [])
  else
    let currentIndex := indexOf (visibleDatesArray env) (visibleDateUnix r) in
    if (currentIndex =? -1)%Z then (r, [])
    else
      let nextVisibleDayIndex := nextIndex env forceScrollByDay currentIndex in
      let nextOffset := nextOffset env forceScrollByDay nextVisibleDayIndex in
      scrollToPage env animated r nextOffset nextVisibleDayIndex.

Definition goToPrevPage (env : Env) (animated forceScrollByDay : option bool)
    (r : Refs) : Refs * list ScrollTo :=
  let animated := default true animated in
  let forceScrollByDay := default false forceScrollByDay in
  if truthy (triggerDateChanged r) then (r, [])
  else
    let currentIndex := indexOf (visibleDatesArray env) (visibleDateUnix r) in
    if (currentIndex =? -1)%Z then (r, [])
    else
      let nextVisibleDayIndex := prevIndex env forceScrollByDay currentIndex in
      let nextOffset := nextOffset env forceScrollByDay nextVisibleDayIndex in
      scrollToPage env animated r nextOffset nextVisibleDayIndex.

(** *** zoom *)

Record ZoomProps := mkZoomProps {
  scale : option Q;
  height : option Q
}.

Record ZoomEnv := mkZoomEnv {
  initialTimeIntervalHeight : Q;
  minTimeIntervalHeight : Q;
  maxTimeIntervalHeight : Q
}.

(** The shared values [zoom] reads and writes. *)
Record Shared := mkShared {
  timeIntervalHeight : Q;
  offsetY : Q
}.

(** [props?.scale] as a condition: defined and not zero. *)
Definition scale_given (props : option ZoomProps) : option Q :=
  match props ≫= scale with
  | Some s => if Qeq_bool s 0 then None else Some s
  | None => None
  end.

(** The first statements of the worklet. *)
Definition newHeight (ze : ZoomEnv) (props : option ZoomProps) (sv : Shared) : Q :=
  let newHeight := default (initialTimeIntervalHeight ze) (props ≫= height) in
  match scale_given props with
  | Some s => timeIntervalHeight sv * s
  | None => newHeight
  end.

(** The choice of [newHeight] as the specification words it: [height] if
    given, else [timeIntervalHeight * scale] if [scale] is given, else
    [initialTimeIntervalHeight]. *)
Definition newHeight_height_first (ze : ZoomEnv) (props : option ZoomProps) (sv : Shared) : Q :=
  match props ≫= height with
  | Some h => h
  | None =>
      match props ≫= scale with
      | Some s => timeIntervalHeight sv * s
      | None => initialTimeIntervalHeight ze
      end
  end.

Section Zoom.
(** [clampValues] comes from [./utils/utils]; [zoom] is read with it as
    a parameter. *)
Variable clamp : Q -> Q -> Q -> Q.

Definition clampedHeight (ze : ZoomEnv) (props : option ZoomProps) (sv : Shared) : Q :=
  clamp (newHeight ze props sv) (minTimeIntervalHeight ze) (maxTimeIntervalHeight ze).

Definition zoom (ze : ZoomEnv) (props : option ZoomProps) (sv : Shared)
  : Shared * list ScrollTo :=
  let clampedHeight := clampedHeight ze props sv in
  let pinchYNormalized := offsetY sv / timeIntervalHeight sv in
  let pinchYScale := clampedHeight * pinchYNormalized in
  let y := pinchYScale in
  ({| timeIntervalHeight := clampedHeight; offsetY := offsetY sv |},
   [ {| sc_ref := verticalListRef; sc_x := 0; sc_y := y; sc_animated := true |} ]).

End Zoom.

(** Modelled from the spec: [clampValues] of [./utils/utils], a helper
    defined outside [CalendarContainer.tsx]; it brings [value] into
    [min .. max]. *)
Definition clampValues (value min max : Q) : Q := Qmax min (Qmin value max).

(** *** getDateByOffset and getEventByOffset *)

Record Position := mkPosition { pos_x : Q; pos_y : Q }.

(** [parseDateTime(unix).plus({ minutes })], kept symbolic. *)
Record DateTime := mkDateTime { dt_unix : Z; dt_minutes : Q }.

Definition columnIndex (env : Env) (position : Position) : Z :=
  Qfloor (pos_x position / columnWidth env).

Definition getDateByOffset (env : Env) (r : Refs) (position : Position) : option DateTime :=
  let dayIndex := indexOf (visibleDatesArray env) (visibleDateUnix r) in
  if (dayIndex =? -1)%Z then None
  else
    let columnIndex := columnIndex env position in
    let dateUnixByIndex := at_index (visibleDatesArray env) (dayIndex + columnIndex) in
    if truthy dateUnixByIndex
    then
      let minutes := inject_Z (Qfloor (pos_y position / minuteHeight env)) + start env in
      (fun unix => {| dt_unix := unix; dt_minutes := minutes |}) <$> dateUnixByIndex
    else None.

(** Property values of an event other than [_internal]. *)
Inductive JsValue := JsNum (q : Q) | JsStr (s : string) | JsBool (b : bool).

(** An event object: its own properties, [_internal] apart. *)
Record EventObj := mkEventObj {
  fields : gmap string JsValue;
  _internal : option EventItem.Internal
}.

(** Objects live in a heap; an event is known by its address. *)
Definition loc := positive.
Abbreviation heap := (gmap loc EventObj).

(** [{ ...event }]: a new object with the same own properties. *)
Definition spread (h : heap) (l : loc) : option (heap * loc) :=
  match h !! l with
  | Some o => let l' := fresh (dom h) in Some (<[l' := o]> h, l')
  | None => None
  end.

(** [delete o._internal] *)
Definition delete_internal (h : heap) (l : loc) : heap :=
  alter (fun o => {| fields := fields o; _internal := None |}) l h.

(** The test of the loop body. *)
Definition hit (cw targetX : Q) (i : EventItem.Internal) : bool :=
  let eventWidth := cw / EventItem.total i in
  let eventX := EventItem.index i * eventWidth in
  Qle_bool eventX targetX && Qle_bool targetX (eventX + eventWidth).

(** The band as the specification words it. *)
Definition in_band (cw targetX : Q) (i : EventItem.Internal) : Prop :=
  EventItem.index i * cw / EventItem.total i <= targetX /\
  targetX <= (EventItem.index i + 1) * cw / EventItem.total i.

(** The [for] loop over [eventsByDate]. Reading [_internal] of a value
    that is no event object, or of an event without it, is a
    [TypeError]. *)
Fixpoint scan_events (h : heap) (cw targetX : Q) (eventsByDate : list loc)
  : completion (heap * option loc) :=
  match eventsByDate with
  | [] => Normal (h, None)
  | event :: rest =>
      match h !! event ≫= _internal with
      | None => Throw "TypeError"
      | Some i =>
          if hit cw targetX i
          then
            match spread h event with
            | Some (h', clonedEvent) =>
                Normal (delete_internal h' clonedEvent, Some clonedEvent)
            | None => Throw "TypeError"
            end
          else scan_events h cw targetX rest
      end
  end.

Section EventByOffset.
(** [dateTimeToISOString] of [./utils/dateUtils] and the lookup behind
    [eventsRef.current?.getEventsByDate], both outside this file. *)
Variable dateTimeToISOString : DateTime -> string.
Variable eventsRef : option (string -> option (list loc)).

Definition eventsByDate (date : DateTime) : list loc :=
  default [] (eventsRef ≫= fun getEventsByDate => getEventsByDate (dateTimeToISOString date)).

Definition targetX (env : Env) (position : Position) : Q :=
  pos_x position - inject_Z (columnIndex env position) * columnWidth env.

Definition getEventByOffset (env : Env) (r : Refs) (h : heap) (position : Position)
  : completion (heap * option loc) :=
  match getDateByOffset env r position with
  | None => Normal (h, None)
  | Some date =>
      scan_events h (columnWidth env) (targetX env position) (eventsByDate date)
  end.

End EventByOffset.

(** *** Shapes of a call that does not scroll *)

(** The refs after [triggerDateChanged.current = undefined]. *)
Definition cleared (r : Refs) : Refs :=
  {| triggerDateChanged := None; scrollType := scrollType r;
     visibleDateUnix := visibleDateUnix r |}.

(** No scroll was issued and no date was written to
    [triggerDateChanged]: the refs are as before, or only cleared. *)
Definition quiet (r : Refs) (out : Refs * list ScrollTo) : Prop :=
  snd out = [] /\ (fst out = r \/ fst out = cleared r).

(** What holds of the outcome [out] of a page change towards position
    [target]: the four ways of giving up, and the only way of scrolling. *)
Definition page_guards (env : Env) (force : bool) (r : Refs)
    (target : Z) (out : Refs * list ScrollTo) : Prop :=
  let dates := visibleDatesArray env in
  (truthy (triggerDateChanged r) = true -> out = (r, [])) /\
  (indexOf dates (visibleDateUnix r) = (-1)%Z -> out = (r, [])) /\
  (truthy (at_index dates target) = false -> quiet r out) /\
  (isScrollable env (nextOffset env force target) = false -> quiet r out) /\
  (truthy (triggerDateChanged r) = false ->
   indexOf dates (visibleDateUnix r) <> (-1)%Z ->
   truthy (at_index dates target) = false \/
   isScrollable env (nextOffset env force target) = false ->
   out = (cleared r, [])) /\
  (forall c, c ∈ snd out ->
   exists d, at_index dates target = Some d /\
             (0 <= target < Z.of_nat (length dates))%Z /\
             triggerDateChanged (fst out) = Some d /\
             snd out = [c] /\ sc_ref c = gridListRef /\
             sc_x c = nextOffset env force target).

(** The clone handed out by [getEventByOffset]. *)
Definition stripped (o : EventObj) : EventObj :=
  {| fields := fields o; _internal := None |}.

(** *** A small calendar used in the examples below *)

Definition sample_days : Days :=
  {| daysToShow := 7; numberOfDays := 7; isSingleDay := false; columns := 7 |}.

Definition sample_env : Env :=
  {| days := sample_days; scrollByDay := true; columnWidth := 50;
     calendarGridWidth := 350; minuteHeight := 1; start := 0;
     visibleDatesArray := [86400000; 172800000; 259200000]%Z;
     calendarListRef := Some (fun _ _ => true) |}.

Definition sample_refs : Refs :=
  {| triggerDateChanged := None; scrollType := dayBar;
     visibleDateUnix := 86400000 |}.

(** A page change towards the second day is under way. *)
Definition pending_refs : Refs :=
  {| triggerDateChanged := Some 172800000%Z; scrollType := calendarGrid;
     visibleDateUnix := 86400000 |}.

Definition sample_zoomEnv : ZoomEnv :=
  {| initialTimeIntervalHeight := 60; minTimeIntervalHeight := 60;
     maxTimeIntervalHeight := 124 |}.

(** Bounds given the wrong way round. *)
Definition inverted_zoomEnv : ZoomEnv :=
  {| initialTimeIntervalHeight := 60; minTimeIntervalHeight := 100;
     maxTimeIntervalHeight := 50 |}.

Definition sample_shared : Shared :=
  {| timeIntervalHeight := 50; offsetY := 200 |}.

(** [zoom({ scale: 2, height: 80 })] *)
Definition both_props : option ZoomProps :=
  Some {| scale := Some 2; height := Some 80 |}.

(** An event in the right half of its column. *)
Definition sample_object : EventObj :=
  {| fields := {[ "id"%string := JsStr "a"; "title"%string := JsStr "Lunch" ]};
     _internal := Some {| EventItem.duration := 60;
                          EventItem.startMinutes := Some 720;
                          EventItem.total := 2; EventItem.index := 1;
                          EventItem.columnSpan := 1;
                          EventItem.eventStartUnix := 86400000 |} |}.

Definition sample_heap : heap := {[ 1%positive := sample_object ]}.

Definition sample_eventsRef : option (string -> option (list loc)) :=
  Some (fun _ => Some [1%positive]).

Definition sample_iso (d : DateTime) : string := "1970-01-02T00:00:00.000Z".

End CalendarContainer.

(** ** EventItem: counting hidden days *)

Module EventItemDays.
Import EventItem.
Local Open Scope Q_scope.

(** How many of the [k] days that start at [from] have no entry in
    [visibleDates]. *)
Fixpoint hidden_days (vd : gmap Z VisibleDate) (from : Z) (k : nat) : Z :=
  match k with
  | O => 0%Z
  | S k' =>
      (match vd !! from with None => 1 | Some _ => 0 end
       + hidden_days vd (from + MILLISECONDS_IN_DAY) k')%Z
  end.

End EventItemDays.

(** ** CalendarContainer: derived values and the remaining callbacks *)

Module ContainerRest.
Import CalendarContainer.
Local Open Scope Q_scope.

(** *** The effect that follows the [hideWeekDays] prop *)

Record HiddenDays := mkHiddenDays {
  hideWeekDaysRef : list Z;
  hideWeekDays : list Z
}.

(** [l.every((value, index) => value === ref[index])], from position
    [index] on. *)
Fixpoint every_same (index : nat) (l ref : list Z) : bool :=
  match l with
  | [] => true
  | value :: l' =>
      match ref !! index with
      | Some v => (value =? v)%Z
      | None => false
      end && every_same (S index) l' ref
  end.

Definition syncHideWeekDays (initialHideWeekDays : option (list Z)) (st : HiddenDays)
  : HiddenDays :=
  let newHideWeekDays := default [] initialHideWeekDays in
  if (length newHideWeekDays =? length (hideWeekDaysRef st))%nat
  then
    let isSame := every_same 0 newHideWeekDays (hideWeekDaysRef st) in
    if negb isSame
    then {| hideWeekDaysRef := newHideWeekDays; hideWeekDays := newHideWeekDays |}
    else st
  else {| hideWeekDaysRef := newHideWeekDays; hideWeekDays := newHideWeekDays |}.

(** *** Widths *)

(** [calendarLayout.width] and the rounded [hourWidth]. *)
Record Widths := mkWidths {
  calendarLayout_width : Q;
  hourWidth : Q
}.

Definition derive_columnWidth (w : Widths) (d : Days) : Q :=
  (calendarLayout_width w - hourWidth w) / numberOfDays d.

Definition derive_calendarGridWidth (w : Widths) (d : Days) : Q :=
  if isSingleDay d then calendarLayout_width w
  else calendarLayout_width w - hourWidth w.

(** *** The time axis *)

Record TimeAxis := mkTimeAxis {
  totalSlots : nat;
  timeInterval : Q;
  spaceFromTop : Q;
  spaceFromBottom : Q
}.

Definition extraHeight (a : TimeAxis) : Q := spaceFromTop a + spaceFromBottom a.

Definition maxTimelineHeight (a : TimeAxis) (ze : ZoomEnv) : Q :=
  inject_Z (Z.of_nat (totalSlots a)) * maxTimeIntervalHeight ze + extraHeight a.

Definition derive_minuteHeight (a : TimeAxis) (sv : Shared) : Q :=
  timeIntervalHeight sv / timeInterval a.

Definition timelineHeight (a : TimeAxis) (sv : Shared) : Q :=
  inject_Z (Z.of_nat (totalSlots a)) * timeIntervalHeight sv + 1 + extraHeight a.

(** *** getSizeByDuration *)

Record Size := mkSize { size_width : Q; size_height : Q }.

Definition getSizeByDuration (env : Env) (duration : Q) : Size :=
  let height := duration * minuteHeight env in
  {| size_width := columnWidth env; size_height := height |}.

(** *** goToDate, setVisibleDate, initialOffset *)

(** What the date library answers for the date handed to [goToDate] or
    [setVisibleDate]: [parseDateTime(isoDate).toMillis()],
    [startOfWeek(isoDate, firstDay).toMillis()], [date.hour] and
    [date.minute]. *)
Record ParsedDate := mkParsedDate {
  dayMillis : Z;
  weekMillis : Z;
  date_hour : Z;
  date_minute : Z
}.

(** [GoToDateOptions] without [date]. *)
Record GoToDateOptions := mkGoToDateOptions {
  hourScroll : option bool;
  animatedDate : option bool;
  animatedHour : option bool
}.

Section Nearest.
(** [findNearestNumber] of [./utils/utils]. *)
Variable findNearestNumber : list Z -> Z -> Z.

Definition goToDate (env : Env) (scrollVisibleHeight : Q) (date : ParsedDate)
    (props : option GoToDateOptions) (r : Refs) : Refs * list ScrollTo :=
  let targetDateUnix := dayMillis date in
  let targetDateUnix :=
    if negb (scrollByDay env) then weekMillis date else targetDateUnix in
  let visibleDates := visibleDatesArray env in
  let nearestUnix := findNearestNumber visibleDates targetDateUnix in
  let visibleDayIndex := indexOf visibleDates nearestUnix in
  let '(r, scrolled) :=
    if negb (visibleDayIndex =? -1)%Z
    then
      let offset :=
        if isSingleDay (days env) || scrollByDay env
        then inject_Z visibleDayIndex * colWidth env
        else pageOffset env visibleDayIndex in
      if isScrollable env offset
      then ({| triggerDateChanged := Some nearestUnix; scrollType := calendarGrid;
               visibleDateUnix := visibleDateUnix r |},
            [ {| sc_ref := gridListRef; sc_x := offset; sc_y := 0;
                 sc_animated := default true (props ≫= animatedDate) |} ])
      else (r, [])
    else (r, []) in
  if default false (props ≫= hourScroll)
  then
    let minutes := inject_Z (date_hour date * 60 + date_minute date) in
    let position := minutes * minuteHeight env - start env * minuteHeight env in
    let scrollOffset := scrollVisibleHeight / 2 in
    (r, scrolled ++
        [ {| sc_ref := verticalListRef; sc_x := 0; sc_y := position - scrollOffset;
             sc_animated := default true (props ≫= animatedHour) |} ])
  else (r, scrolled).

(** [visibleDateUnix.current] after the call; [visibleDateUnixAnim]
    receives the same value. *)
Definition setVisibleDate (env : Env) (date : ParsedDate) (r : Refs) : Refs :=
  let targetDateUnix := dayMillis date in
  let nearestUnix := findNearestNumber (visibleDatesArray env) targetDateUnix in
  {| triggerDateChanged := triggerDateChanged r; scrollType := scrollType r;
     visibleDateUnix := nearestUnix |}.

(** [calendarData.visibleDates] maps a day to its entry; only the
    entry's [index] is read. *)
Definition initialOffset (env : Env) (visibleDates : gmap Z Z) (visibleDateUnix : Z) : Q :=
  let nearestNumber := findNearestNumber (visibleDatesArray env) visibleDateUnix in
  match visibleDates !! nearestNumber with
  | None => 0
  | Some nearestIndex =>
      if isSingleDay (days env) || scrollByDay env
      then inject_Z nearestIndex * colWidth env
      else pageOffset env nearestIndex
  end.

End Nearest.

(** *** Shapes used in the statements below *)

(** What [goToNextPage] and [goToPrevPage] have in common; [target]
    gives the position aimed at from the current one. *)
Definition pageChange (target : Z -> Z) (env : Env) (animated force : bool)
    (r : Refs) : Refs * list ScrollTo :=
  if truthy (triggerDateChanged r) then (r, [])
  else
    let currentIndex := indexOf (visibleDatesArray env) (visibleDateUnix r) in
    if (currentIndex =? -1)%Z then (r, [])
    else
      scrollToPage env animated r
        (nextOffset env force (target currentIndex)) (target currentIndex).



(** *** More of the small calendar *)

(** Picks the first date that is not before the target, else the last. *)
Fixpoint sample_nearest (l : list Z) (x : Z) : Z :=
  match l with
  | [] => x
  | [y] => y
  | y :: l' => if (x <=? y)%Z then y else sample_nearest l' x
  end.

(** The refs once the scroll to the second day has been carried out. *)
Definition arrived_refs : Refs :=
  {| triggerDateChanged := None; scrollType := calendarGrid;
     visibleDateUnix := 172800000 |}.

Definition sample_date : ParsedDate :=
  {| dayMillis := 172800000; weekMillis := 0; date_hour := 9; date_minute := 30 |}.

(** Bounds wide enough to zoom between 50 and 100. *)
Definition wide_zoomEnv : ZoomEnv :=
  {| initialTimeIntervalHeight := 60; minTimeIntervalHeight := 40;
     maxTimeIntervalHeight := 124 |}.

(** What the events of [sample_env] read from [useBody()]. *)
Definition sample_env_body : EventItem.Body :=
  {| EventItem.minuteHeight := 1; EventItem.columnWidthAnim := 50;
     EventItem.start := 0; EventItem.end_ := 1440;
     EventItem.rightEdgeSpacing := 1; EventItem.overlapEventsSpacing := 1 |}.

(** One hour is 60 high and the list is scrolled to 10:00. *)
Definition hour_shared : Shared :=
  {| timeIntervalHeight := 60; offsetY := 600 |}.

Definition sample_axis : TimeAxis :=
  {| totalSlots := 24; timeInterval := 60; spaceFromTop := 16;
     spaceFromBottom := 16 |}.

Definition sample_widths : Widths :=
  {| calendarLayout_width := 400; hourWidth := 50 |}.

(** Two events that share a column, left and right. *)
Definition left_object : EventObj :=
  {| fields := {[ "id"%string := JsStr "b" ]};
     _internal := Some {| EventItem.duration := 30;
                          EventItem.startMinutes := Some 720;
                          EventItem.total := 2; EventItem.index := 0;
                          EventItem.columnSpan := 1;
                          EventItem.eventStartUnix := 86400000 |} |}.

Definition pair_heap : heap :=
  {[ 1%positive := sample_object; 2%positive := left_object ]}.

Definition pair_eventsRef : option (string -> option (list loc)) :=
  Some (fun _ => Some [1%positive; 2%positive]).

End ContainerRest.

(** * Proofs *)

(** Closes a goal about concrete numbers by evaluation. *)
Ltac evaluate :=
  vm_compute; repeat split;
  solve [ reflexivity | discriminate | intros ?; discriminate ].

(** ** Facts about EventItem *)

Section EventItemFacts.
Import EventItem.
Local Open Scope Q_scope.

(** *** The loop over days *)

Lemma day_steps_guard (i stop : Z) :
  (i < stop)%Z ->
  day_steps i stop = S (day_steps (i + MILLISECONDS_IN_DAY) stop).
Proof.
  intros Hlt. unfold day_steps, MILLISECONDS_IN_DAY.
  replace (stop - i + 86400000 - 1)%Z
    with ((stop - (i + 86400000) + 86400000 - 1) + 1 * 86400000)%Z by lia.
  rewrite Z.div_add by lia.
  rewrite Z2Nat.inj_add; [ | | lia].
  - simpl (Z.to_nat 1). lia.
  - apply Z.div_pos; lia.
Qed.

Lemma for_days_exit (fuel : nat) (i stop : Z) body acc :
  (stop <= i)%Z -> for_days fuel i stop body acc = acc.
Proof.
  intros Hge. destruct fuel as [|fuel]; simpl; [reflexivity|].
  destruct (Z.ltb_spec i stop); [lia | reflexivity].
Qed.

(** The computed bound is enough: any larger fuel gives the same value,
    so the loop leaves through its guard. *)
Lemma for_days_fuel (fuel : nat) : forall (i stop : Z) body acc,
  (day_steps i stop <= fuel)%nat ->
  for_days fuel i stop body acc = for_days (day_steps i stop) i stop body acc.
Proof.
  induction fuel as [|fuel IH]; intros i stop body acc Hfuel.
  - replace (day_steps i stop) with O by lia. reflexivity.
  - destruct (Z.ltb_spec i stop) as [Hlt|Hge].
    + rewrite (day_steps_guard i stop Hlt) in Hfuel |- *.
      simpl. destruct (Z.ltb_spec i stop); [|lia].
      apply IH. lia.
    + rewrite !for_days_exit by assumption. reflexivity.
Qed.

(** The loop counts hidden days: Thursday is three days after Monday, and
    the hidden Wednesday is taken off. *)
Example diffDays_skips_hidden :
  diffDays (data sample_body early_event) = 2%Z.
Proof. reflexivity. Qed.

(** *** Widths and slots *)

Lemma integer_gap (a b : Q) :
  is_integer a -> is_integer b -> ~ a == b -> a + 1 <= b \/ b + 1 <= a.
Proof.
  unfold is_integer. intros Ha Hb Hne.
  assert (Hz : (Qfloor a + 1 <= Qfloor b)%Z \/ (Qfloor b + 1 <= Qfloor a)%Z).
  { destruct (Z.eq_dec (Qfloor a) (Qfloor b)) as [E|E]; [|lia].
    exfalso. apply Hne. rewrite Ha, Hb, E. reflexivity. }
  destruct Hz as [Hz|Hz]; [left|right];
    rewrite Zle_Qle, inject_Z_plus in Hz.
  - rewrite Ha, Hb. exact Hz.
  - rewrite Ha, Hb. exact Hz.
Qed.

Lemma eventWidth_single_span (b : Body) (p : Props) (t : Q) :
  total (event p) == t -> columnSpan (event p) == 1 ->
  eventWidth b p ==
  (columnWidthAnim b - rightEdgeSpacing b - (t - 1) * overlapEventsSpacing b) / t.
Proof.
  intros Ht Hs. unfold eventWidth. cbv zeta. rewrite Ht, Hs. 
  apply Qmult_1_r.
Qed.


(** Geometry of one group, in terms of the common width [w]. *)
Lemma slots_inside (cw r s t w i : Q) :
  0 <= r -> 0 <= s -> 1 <= t ->
  w == (cw - r - (t - 1) * s) / t ->
  0 <= i -> i <= t - 1 -> 0 <= w ->
  0 <= (w + s) * i /\ (w + s) * i + w <= cw.
Proof.
  intros Hr Hs Ht Hw Hi0 Hi1 Hw0.
  assert (Htw : t * w == cw - r - (t - 1) * s).
  { rewrite Hw. field. lra. }
  split; [nra|].
  assert (0 <= (w + s) * (t - 1 - i)) by nra.
  nra.
Qed.

Lemma slots_apart (s w i j : Q) :
  0 <= s -> 0 <= w -> i + 1 <= j -> (w + s) * i + w <= (w + s) * j.
Proof. intros Hs Hw Hij. nra. Qed.

(** What holds of the painted points whatever the width: in one day
    column, for a group of packed events that share [total = t] with
    [t >= 1], all of [columnSpan = 1], whose [index] values are pairwise
    distinct integers of [0 .. t-1], and with both spacings
    non-negative, every point an event paints (edges included) lies
    between the left edge of the column and that edge plus
    [columnWidthAnim], and no point is painted by two events of the
    group. An event of negative width paints no point, so this says
    nothing about where its edges are; the edges are the subject of
    [group_fits_side_by_side] below. *)
Theorem group_side_by_side (b : Body) (t : Q) (dd : Z) (group : list Props) :
  0 <= rightEdgeSpacing b ->
  0 <= overlapEventsSpacing b ->
  1 <= t ->
  (forall p, p ∈ group ->
     total (event p) == t /\ columnSpan (event p) == 1 /\
     is_slot t (index (event p)) /\ diffDays (data b p) = dd) ->
  (forall i j p q, i <> j -> group !! i = Some p -> group !! j = Some q ->
     ~ index (event p) == index (event q)) ->
  (forall p x, p ∈ group -> covers_closed b p x ->
     columnLeft b p <= x /\ x <= columnLeft b p + columnWidthAnim b) /\
  (forall i j p q x, i <> j -> group !! i = Some p -> group !! j = Some q ->
     ~ (covers b p x /\ covers b q x)).
Proof.
  intros Hr Hs Ht Hgroup Hdistinct. split.
  - intros p x Hp [Hlo Hhi].
    destruct (Hgroup p Hp) as (Htot & Hspan & (_ & Hi0 & Hi1) & _).
    pose proof (eventWidth_single_span b p t Htot Hspan) as Hw.
    unfold eventPosX, columnLeft in *. cbv zeta in *.
    set (L := inject_Z (diffDays (data b p)) * columnWidthAnim b) in *.
    set (w := eventWidth b p) in *.
    assert (Hw0 : 0 <= w) by lra.
    destruct (slots_inside _ _ _ _ _ _ Hr Hs Ht Hw Hi0 Hi1 Hw0). lra.
  - intros i j p q x Hij Hp Hq [[Hpl Hpr] [Hql Hqr]].
    pose proof (Hdistinct i j p q Hij Hp Hq) as Hne.
    apply list_elem_of_lookup_2 in Hp, Hq.
    destruct (Hgroup p Hp) as (Htp & Hsp & (Hip & _) & Hdp).
    destruct (Hgroup q Hq) as (Htq & Hsq & (Hiq & _) & Hdq).
    pose proof (eventWidth_single_span b p t Htp Hsp) as Hwp.
    pose proof (eventWidth_single_span b q t Htq Hsq) as Hwq.
    unfold eventPosX in *. cbv zeta in *. rewrite Hdp in *. rewrite Hdq in *.
    set (L := inject_Z dd * columnWidthAnim b) in *.
    rewrite Hwp in *. rewrite Hwq in *.
    set (w := (columnWidthAnim b - rightEdgeSpacing b
               - (t - 1) * overlapEventsSpacing b) / t) in *.
    assert (Hw0 : 0 <= w) by lra.
    destruct (integer_gap _ _ Hip Hiq Hne) as [Hgap|Hgap].
    + pose proof (slots_apart _ _ _ _ Hs Hw0 Hgap). lra.
    + pose proof (slots_apart _ _ _ _ Hs Hw0 Hgap). lra.
Qed.

Lemma group_side_by_side_witness :
  (forall p x, p ∈ sample_group -> covers_closed sample_body p x ->
     columnLeft sample_body p <= x /\
     x <= columnLeft sample_body p + columnWidthAnim sample_body) /\
  (forall i j p q x, i <> j ->
     sample_group !! i = Some p -> sample_group !! j = Some q ->
     ~ (covers sample_body p x /\ covers sample_body q x)).
Proof.
  apply (group_side_by_side sample_body 2 0 sample_group).
  - evaluate.
  - evaluate.
  - evaluate.
  - intros p Hp. unfold sample_group in Hp.
    apply elem_of_cons in Hp as [-> | Hp];
      [| apply list_elem_of_singleton in Hp as ->]; evaluate.
  - intros i j p q Hij Hi Hj.
    destruct i as [|[|i]], j as [|[|j]]; try discriminate; try congruence;
      simpl in Hi, Hj; injection Hi as <-; injection Hj as <-; evaluate.
Defined.

(** When the common width is not negative the edges themselves are in
    order: each event starts inside the column, ends inside it, and ends
    before any event of a higher slot starts. *)
Lemma group_edges_in_order (b : Body) (t : Q) (p q : Props) :
  0 <= rightEdgeSpacing b -> 0 <= overlapEventsSpacing b -> 1 <= t ->
  total (event p) == t -> columnSpan (event p) == 1 ->
  total (event q) == t -> columnSpan (event q) == 1 ->
  is_slot t (index (event p)) -> is_slot t (index (event q)) ->
  diffDays (data b p) = diffDays (data b q) ->
  0 <= eventWidth b p ->
  columnLeft b p <= eventPosX b p /\
  eventPosX b p + eventWidth b p <= columnLeft b p + columnWidthAnim b /\
  (index (event p) < index (event q) ->
   eventPosX b p + eventWidth b p <= eventPosX b q).
Proof.
  intros Hr Hs Ht Htp Hsp Htq Hsq (Hip & Hp0 & Hp1) (Hiq & _) Hdd Hw0.
  pose proof (eventWidth_single_span b p t Htp Hsp) as Hwp.
  pose proof (eventWidth_single_span b q t Htq Hsq) as Hwq.
  unfold eventPosX, columnLeft. cbv zeta. rewrite <- Hdd.
  set (L := inject_Z (diffDays (data b p)) * columnWidthAnim b).
  rewrite Hwq, <- Hwp.
  set (w := eventWidth b p) in *.
  destruct (slots_inside _ _ _ _ _ _ Hr Hs Ht Hwp Hp0 Hp1 Hw0).
  split; [lra|]. split; [lra|]. intros Hlt.
  destruct (integer_gap _ _ Hip Hiq) as [Hgap|Hgap]; [lra | | lra].
  pose proof (slots_apart _ _ _ _ Hs Hw0 Hgap). lra.
Qed.


Lemma eventWidth_nonneg (b : Body) (t : Q) (p : Props) :
  1 <= t ->
  rightEdgeSpacing b + (t - 1) * overlapEventsSpacing b <= columnWidthAnim b ->
  total (event p) == t -> columnSpan (event p) == 1 ->
  0 <= eventWidth b p.
Proof.
  intros Ht Hroom Htp Hsp.
  pose proof (eventWidth_single_span b p t Htp Hsp) as Hw.
  assert (Htw : t * eventWidth b p
                == columnWidthAnim b - rightEdgeSpacing b
                   - (t - 1) * overlapEventsSpacing b).
  { rewrite Hw. field. lra. }
  set (w := eventWidth b p) in *. nra.
Qed.

(** C1, as the code has it. In one day column, take a group of packed
    events that share [total = t] with [t >= 1], all of
    [columnSpan = 1], whose [index] values are pairwise distinct
    integers of [0 .. t-1]; let both spacings be non-negative and let
    the column have room for them:
    [rightEdgeSpacing + (t - 1) * overlapEventsSpacing <= columnWidthAnim].
    Then the width [EventItem] computes is not negative, every event
    starts and ends between the left edge of the column and that edge
    plus [columnWidthAnim], and of any two events of the group one ends
    at or before the point where the other starts. *)
Theorem group_fits_side_by_side (b : Body) (t : Q) (dd : Z) (group : list Props) :
  0 <= rightEdgeSpacing b ->
  0 <= overlapEventsSpacing b ->
  1 <= t ->
  rightEdgeSpacing b + (t - 1) * overlapEventsSpacing b <= columnWidthAnim b ->
  (forall p, p ∈ group ->
     total (event p) == t /\ columnSpan (event p) == 1 /\
     is_slot t (index (event p)) /\ diffDays (data b p) = dd) ->
  (forall i j p q, i <> j -> group !! i = Some p -> group !! j = Some q ->
     ~ index (event p) == index (event q)) ->
  (forall p, p ∈ group ->
     0 <= eventWidth b p /\
     columnLeft b p <= eventPosX b p /\
     eventPosX b p + eventWidth b p <= columnLeft b p + columnWidthAnim b) /\
  (forall i j p q, i <> j -> group !! i = Some p -> group !! j = Some q ->
     eventPosX b p + eventWidth b p <= eventPosX b q \/
     eventPosX b q + eventWidth b q <= eventPosX b p).
Proof.
  intros Hr Hs Ht Hroom Hgroup Hdistinct. split.
  - intros p Hp.
    destruct (Hgroup p Hp) as (Htp & Hsp & Hslot & _).
    pose proof (eventWidth_nonneg b t p Ht Hroom Htp Hsp) as Hw0.
    split; [exact Hw0|].
    destruct (group_edges_in_order b t p p Hr Hs Ht Htp Hsp Htp Hsp Hslot Hslot
                eq_refl Hw0) as (Hleft & Hright & _).
    split; assumption.
  - intros i j p q Hij Hp Hq.
    pose proof (Hdistinct i j p q Hij Hp Hq) as Hne.
    apply list_elem_of_lookup_2 in Hp, Hq.
    destruct (Hgroup p Hp) as (Htp & Hsp & Hslp & Hdp).
    destruct (Hgroup q Hq) as (Htq & Hsq & Hslq & Hdq).
    pose proof (eventWidth_nonneg b t p Ht Hroom Htp Hsp) as Hwp.
    pose proof (eventWidth_nonneg b t q Ht Hroom Htq Hsq) as Hwq.
    assert (Hdd : diffDays (data b p) = diffDays (data b q)) by congruence.
    destruct (integer_gap _ _ (proj1 Hslp) (proj1 Hslq) Hne) as [Hgap|Hgap].
    + left.
      destruct (group_edges_in_order b t p q Hr Hs Ht Htp Hsp Htq Hsq Hslp Hslq
                  Hdd Hwp) as (_ & _ & Hord).
      apply Hord. lra.
    + right.
      destruct (group_edges_in_order b t q p Hr Hs Ht Htq Hsq Htp Hsp Hslq Hslp
                  (eq_sym Hdd) Hwq) as (_ & _ & Hord).
      apply Hord. lra.
Qed.

Lemma group_fits_side_by_side_witness :
  (forall p, p ∈ sample_group ->
     0 <= eventWidth sample_body p /\
     columnLeft sample_body p <= eventPosX sample_body p /\
     eventPosX sample_body p + eventWidth sample_body p
     <= columnLeft sample_body p + columnWidthAnim sample_body) /\
  (forall i j p q, i <> j ->
     sample_group !! i = Some p -> sample_group !! j = Some q ->
     eventPosX sample_body p + eventWidth sample_body p <= eventPosX sample_body q \/
     eventPosX sample_body q + eventWidth sample_body q <= eventPosX sample_body p).
Proof.
  apply (group_fits_side_by_side sample_body 2 0 sample_group).
  - evaluate.
  - evaluate.
  - evaluate.
  - evaluate.
  - intros p Hp. unfold sample_group in Hp.
    apply elem_of_cons in Hp as [-> | Hp];
      [| apply list_elem_of_singleton in Hp as ->]; evaluate.
  - intros i j p q Hij Hi Hj.
    destruct i as [|[|i]], j as [|[|j]]; try discriminate; try congruence;
      simpl in Hi, Hj; injection Hi as <-; injection Hj as <-; evaluate.
Defined.

(** C1, as the specification words it, fails. In a column of 10 with a
    right edge spacing of 100 and no gap, two events of a group of 2 in
    slots 0 and 1 meet every assumption of the claim; the width computed
    is -45, the event in slot 1 has its left edge at -45 and the event
    in slot 0 ends at -45, both outside [0 .. 10]. *)
Lemma negative_width_leaves_column :
  0 <= rightEdgeSpacing narrow_body /\
  0 <= overlapEventsSpacing narrow_body /\
  (forall p, p ∈ sample_group ->
     total (event p) == 2 /\ columnSpan (event p) == 1 /\
     is_slot 2 (index (event p)) /\ diffDays (data narrow_body p) = 0%Z) /\
  ~ index (event (sample_event 2 0)) == index (event (sample_event 2 1)) /\
  eventWidth narrow_body (sample_event 2 1) == - (45) /\
  eventPosX narrow_body (sample_event 2 1) == - (45) /\
  eventPosX narrow_body (sample_event 2 0) + eventWidth narrow_body (sample_event 2 0)
    == - (45) /\
  ~ (0 <= eventPosX narrow_body (sample_event 2 1) /\
     eventPosX narrow_body (sample_event 2 1) + eventWidth narrow_body (sample_event 2 1)
     <= columnWidthAnim narrow_body) /\
  ~ (0 <= eventPosX narrow_body (sample_event 2 0) + eventWidth narrow_body (sample_event 2 0)).
Proof.
  split; [evaluate|]. split; [evaluate|]. split.
  { intros p Hp. unfold sample_group in Hp.
    apply elem_of_cons in Hp as [-> | Hp];
      [| apply list_elem_of_singleton in Hp as ->]; evaluate. }
  split; [evaluate|]. split; [evaluate|]. split; [evaluate|]. split; [evaluate|].
  split.
  - intros [H _]. revert H. vm_compute. intros H. apply H. reflexivity.
  - vm_compute. intros H. apply H. reflexivity.
Qed.

(** *** Clipping to the visible hours *)

Lemma data_cases (b : Body) (p : Props) :
  let sm := default 0 (startMinutes (event p)) in
  let clipped := Qmin (duration (event p)) (end_ b - start b) in
  (sm - start b < 0 /\
   totalDuration (data b p) = clipped + (sm - start b) /\
   newStart (data b p) = 0) \/
  (0 <= sm - start b /\
   totalDuration (data b p) = clipped /\
   newStart (data b p) = sm - start b).
Proof.
  unfold data. cbv zeta.
  destruct (Qlt_le_dec (default 0 (startMinutes (event p)) - start b) 0);
    [left | right]; simpl; auto.
Qed.

(** C2, as the code has it. An event alone in its column ([total = 1],
    [columnSpan = 1]) is as wide as the column minus [rightEdgeSpacing];
    it is exactly as wide as the column when, and only when, that
    spacing is 0. *)
Theorem lone_event_width (b : Body) (p : Props) :
  total (event p) == 1 -> columnSpan (event p) == 1 ->
  eventWidth b p == columnWidthAnim b - rightEdgeSpacing b /\
  (eventWidth b p == columnWidthAnim b <-> rightEdgeSpacing b == 0).
Proof.
  intros Ht Hs.
  assert (Hw : eventWidth b p == columnWidthAnim b - rightEdgeSpacing b).
  { rewrite (eventWidth_single_span b p 1 Ht Hs). field. }
  split; [exact Hw|]. rewrite Hw. split; intros H; lra.
Qed.

Lemma lone_event_width_witness :
  eventWidth sample_body (sample_event 1 0)
    == columnWidthAnim sample_body - rightEdgeSpacing sample_body /\
  (eventWidth sample_body (sample_event 1 0) == columnWidthAnim sample_body
   <-> rightEdgeSpacing sample_body == 0).
Proof. apply (lone_event_width sample_body (sample_event 1 0)); evaluate. Defined.

(** C2, as the specification words it, fails: with the right edge
    spacing at 1 the lone event ([total = 1], [columnSpan = 1],
    [index = 0]) is 99 wide in a column of 100. *)
Lemma lone_event_not_full_width :
  total (event (sample_event 1 0)) == 1 /\
  columnSpan (event (sample_event 1 0)) == 1 /\
  index (event (sample_event 1 0)) == 0 /\
  eventWidth sample_body (sample_event 1 0) == 99 /\
  ~ eventWidth sample_body (sample_event 1 0) == columnWidthAnim sample_body.
Proof. evaluate. Qed.

(** C4. The duration drawn is [min(duration, end - start)]; when the
    event starts before the grid ([startMinutes - start < 0]) the start
    drawn is minute 0 of the grid and the duration drawn is shortened by
    exactly [start - startMinutes]; otherwise the start drawn is
    [startMinutes - start]. *)
Theorem data_clips_to_window (b : Body) (p : Props) :
  let sm := default 0 (startMinutes (event p)) in
  let clipped := Qmin (duration (event p)) (end_ b - start b) in
  (sm - start b < 0 ->
     totalDuration (data b p) == clipped - (start b - sm) /\
     newStart (data b p) == 0) /\
  (0 <= sm - start b ->
     totalDuration (data b p) == clipped /\
     newStart (data b p) == sm - start b).
Proof.
  cbv zeta.
  destruct (data_cases b p) as [(Hlt & Hd & Hn) | (Hge & Hd & Hn)];
    cbv zeta in *; rewrite Hd, Hn.
  - split; intros H; [|lra]. split; [ring | reflexivity].
  - split; intros H; [lra|]. split; reflexivity.
Qed.

Lemma data_clips_to_window_witness :
  totalDuration (data morning_body early_event) == 120 - (480 - 420) /\
  newStart (data morning_body early_event) == 0.
Proof.
  destruct (data_clips_to_window morning_body early_event) as [Hearly _].
  destruct Hearly as [Hd Hn]; [evaluate|].
  split; [rewrite Hd; evaluate | exact Hn].
Defined.

(** *** Dependence on the inputs *)

Lemma data_compat (b1 : Body) (p1 : Props) (b2 : Body) (p2 : Props) :
  same_listed_inputs b1 p1 b2 p2 ->
  totalDuration (data b1 p1) == totalDuration (data b2 p2) /\
  newStart (data b1 p1) == newStart (data b2 p2) /\
  diffDays (data b1 p1) = diffDays (data b2 p2).
Proof.
  intros (Hdur & Hsm & _ & _ & _ & Heu & Hst & Hen & Hsu & Hvd & _).
  split; [|split].
  - destruct (data_cases b1 p1) as [(H1 & D1 & _) | (H1 & D1 & _)];
    destruct (data_cases b2 p2) as [(H2 & D2 & _) | (H2 & D2 & _)];
      rewrite D1, D2; rewrite ?Hdur, ?Hsm, ?Hst, ?Hen in *;
      try reflexivity; lra.
  - destruct (data_cases b1 p1) as [(H1 & _ & N1) | (H1 & _ & N1)];
    destruct (data_cases b2 p2) as [(H2 & _ & N2) | (H2 & _ & N2)];
      rewrite N1, N2; rewrite ?Hsm, ?Hst in *; try reflexivity; lra.
  - unfold data. cbv zeta.
    destruct (Qlt_le_dec _ _), (Qlt_le_dec _ _); simpl;
      rewrite Heu, Hsu, Hvd; reflexivity.
Qed.





End EventItemFacts.

(** ** Facts about CalendarContainer *)

Section ContainerFacts.
Import CalendarContainer.
Local Open Scope Q_scope.


(** *** Day count *)

(** C7. Rendering throws "The maximum number of days is 7" exactly when
    the [numberOfDays] prop (7 when absent) is greater than 7; for a
    prop of at most 7 it does not throw and the number of days shown is
    the smaller of the prop and 7 minus the number of hidden week
    days. *)
Theorem numberOfDays_guard (n : option Q) (hideWeekDays : list Z) :
  let given := default 7 n in
  let shown := 7 - inject_Z (Z.of_nat (length hideWeekDays)) in
  (render_days n hideWeekDays = Throw "The maximum number of days is 7"
   <-> 7 < given) /\
  (given <= 7 ->
   exists d, render_days n hideWeekDays = Normal d /\
             numberOfDays d == Qmin given shown).
Proof.
  cbv zeta. unfold render_days.
  destruct (Qlt_le_dec 7 (default 7 n)) as [Hgt|Hle].
  - split; [tauto|]. intros H. lra.
  - split; [split; [discriminate | intros H; lra]|].
    intros _. eexists. split; [reflexivity|]. simpl.
    assert (Hshown : inject_Z (7 - Z.of_nat (length hideWeekDays))
                     == 7 - inject_Z (Z.of_nat (length hideWeekDays))).
    { unfold Zminus. rewrite inject_Z_plus, inject_Z_opp. ring. }
    destruct (Qlt_le_dec _ _) as [Hlt|Hge].
    + rewrite Q.min_r; [exact Hshown | rewrite <- Hshown; lra].
    + rewrite Q.min_l; [reflexivity | rewrite <- Hshown; exact Hge].
Qed.

Lemma numberOfDays_guard_witness :
  exists d, render_days (Some 3) [0; 6]%Z = Normal d /\
            numberOfDays d == Qmin 3 (7 - inject_Z (Z.of_nat 2)).
Proof.
  destruct (numberOfDays_guard (Some 3) [0; 6]%Z) as [_ Hok].
  apply Hok. evaluate.
Defined.

Example nine_days_throw :
  render_days (Some 9) [] = Throw "The maximum number of days is 7".
Proof. reflexivity. Qed.

Example hidden_days_cap :
  numberOfDays <$> (match render_days None [0; 6]%Z with
                    | Normal d => Some d
                    | Throw _ => None
                    end) = Some 5.
Proof. reflexivity. Qed.

(** *** zoom *)

Lemma clampValues_range (value lo hi : Q) :
  lo <= hi -> lo <= clampValues value lo hi /\ clampValues value lo hi <= hi.
Proof.
  intros Hle. unfold clampValues. split.
  - apply Q.le_max_l.
  - apply Q.max_lub; [exact Hle | apply Q.le_min_r].
Qed.

(** C5, as the code has it. The height [zoom] moves towards is
    [clampValues(newHeight, minTimeIntervalHeight, maxTimeIntervalHeight)],
    where [newHeight] is [timeIntervalHeight * scale] if [scale] is
    given and not zero, else [height] if given, else
    [initialTimeIntervalHeight]; it lies within the two bounds whenever
    [clampValues] keeps its result between bounds that are in order and
    [minTimeIntervalHeight <= maxTimeIntervalHeight]. *)
Theorem zoom_target_height (clamp : Q -> Q -> Q -> Q) (ze : ZoomEnv)
    (props : option ZoomProps) (sv : Shared) :
  let target := timeIntervalHeight (fst (zoom clamp ze props sv)) in
  target = clamp (newHeight ze props sv)
             (minTimeIntervalHeight ze) (maxTimeIntervalHeight ze) /\
  (forall s, props ≫= scale = Some s -> ~ s == 0 ->
     newHeight ze props sv = timeIntervalHeight sv * s) /\
  (forall s h, props ≫= scale = Some s -> s == 0 -> props ≫= height = Some h ->
     newHeight ze props sv = h) /\
  (forall h, props ≫= scale = None -> props ≫= height = Some h ->
     newHeight ze props sv = h) /\
  (forall s, props ≫= scale = Some s -> s == 0 -> props ≫= height = None ->
     newHeight ze props sv = initialTimeIntervalHeight ze) /\
  (props ≫= scale = None -> props ≫= height = None ->
     newHeight ze props sv = initialTimeIntervalHeight ze) /\
  ((forall v lo hi, lo <= hi -> lo <= clamp v lo hi /\ clamp v lo hi <= hi) ->
   minTimeIntervalHeight ze <= maxTimeIntervalHeight ze ->
   minTimeIntervalHeight ze <= target /\ target <= maxTimeIntervalHeight ze).
Proof.
  cbv zeta. split; [reflexivity|].
  unfold newHeight, scale_given.
  repeat split.
  - intros s Hs Hne. rewrite Hs.
    destruct (Qeq_bool s 0) eqn:E; [|reflexivity].
    apply Qeq_bool_eq in E. contradiction.
  - intros s h Hs Hz Hh. rewrite Hs, Hh, (Qeq_eq_bool _ _ Hz). reflexivity.
  - intros h Hs Hh. rewrite Hs, Hh. reflexivity.
  - intros s Hs Hz Hh. rewrite Hs, Hh, (Qeq_eq_bool _ _ Hz). reflexivity.
  - intros Hs Hh. rewrite Hs, Hh. reflexivity.
  - apply H; assumption.
  - apply H; assumption.
Qed.

Lemma zoom_target_height_witness :
  newHeight sample_zoomEnv both_props sample_shared
    = timeIntervalHeight sample_shared * 2 /\
  minTimeIntervalHeight sample_zoomEnv
    <= timeIntervalHeight (fst (zoom clampValues sample_zoomEnv both_props sample_shared)) /\
  timeIntervalHeight (fst (zoom clampValues sample_zoomEnv both_props sample_shared))
    <= maxTimeIntervalHeight sample_zoomEnv.
Proof.
  destruct (zoom_target_height clampValues sample_zoomEnv both_props sample_shared)
    as (_ & Hscale & _ & _ & _ & _ & Hrange).
  split.
  - apply Hscale; evaluate.
  - apply Hrange; [exact clampValues_range | evaluate].
Defined.

(** C5, as the specification words it, fails twice. Called with both
    [scale: 2] and [height: 80] at a current height of 50, [zoom] moves
    towards 100 (the scale wins), not towards the 80 that "height if
    given" yields. And with the bounds the wrong way round (100 and 50)
    the height it moves towards, 100, is not within them. *)
Lemma zoom_scale_overrides_height :
  (timeIntervalHeight (fst (zoom clampValues sample_zoomEnv both_props sample_shared))
     == 100 /\
   clampValues (newHeight_height_first sample_zoomEnv both_props sample_shared)
     (minTimeIntervalHeight sample_zoomEnv) (maxTimeIntervalHeight sample_zoomEnv)
     == 80 /\
   ~ timeIntervalHeight (fst (zoom clampValues sample_zoomEnv both_props sample_shared))
     == clampValues (newHeight_height_first sample_zoomEnv both_props sample_shared)
          (minTimeIntervalHeight sample_zoomEnv) (maxTimeIntervalHeight sample_zoomEnv)) /\
  ~ (minTimeIntervalHeight inverted_zoomEnv
       <= timeIntervalHeight (fst (zoom clampValues inverted_zoomEnv None sample_shared)) /\
     timeIntervalHeight (fst (zoom clampValues inverted_zoomEnv None sample_shared))
       <= maxTimeIntervalHeight inverted_zoomEnv).
Proof.
  split; [evaluate|]. intros [_ H]. apply (Qle_not_lt _ _ H). evaluate.
Qed.

(** C6. [zoom] scrolls the vertical list to
    [y = clampedHeight * (offsetY / timeIntervalHeight)], with the
    height and offset read before the call; so, both heights being
    non-zero, [y / clampedHeight] is the former
    [offsetY / timeIntervalHeight]. *)
Theorem zoom_scroll_target (clamp : Q -> Q -> Q -> Q) (ze : ZoomEnv)
    (props : option ZoomProps) (sv : Shared) :
  let h' := clampedHeight clamp ze props sv in
  exists y,
    snd (zoom clamp ze props sv)
      = [ {| sc_ref := verticalListRef; sc_x := 0; sc_y := y; sc_animated := true |} ] /\
    timeIntervalHeight (fst (zoom clamp ze props sv)) = h' /\
    y = h' * (offsetY sv / timeIntervalHeight sv) /\
    (~ timeIntervalHeight sv == 0 -> ~ h' == 0 ->
     y / h' == offsetY sv / timeIntervalHeight sv).
Proof.
  cbv zeta. eexists. repeat split.
  intros Hold Hnew. field. split; assumption.
Qed.


Lemma zoom_scroll_target_witness :
  exists y,
    snd (zoom clampValues sample_zoomEnv both_props sample_shared)
      = [ {| sc_ref := verticalListRef; sc_x := 0; sc_y := y; sc_animated := true |} ] /\
    y / clampedHeight clampValues sample_zoomEnv both_props sample_shared
      == offsetY sample_shared / timeIntervalHeight sample_shared.
Proof.
  destruct (zoom_scroll_target clampValues sample_zoomEnv both_props sample_shared)
    as (y & Hcmd & _ & _ & Hratio).
  exists y. split; [exact Hcmd|]. apply Hratio; evaluate.
Defined.

(** Zooming to twice the height doubles the scroll offset. *)
Example zoom_doubles_offset :
  sc_y <$> snd (zoom clampValues sample_zoomEnv both_props sample_shared) = [20000 # 50].
Proof. reflexivity. Qed.

(** *** Page navigation *)

Lemma at_index_Some (l : list Z) (i d : Z) :
  at_index l i = Some d -> (0 <= i < Z.of_nat (length l))%Z /\ d ∈ l.
Proof.
  unfold at_index. destruct (Z.ltb_spec i 0) as [|Hi]; [discriminate|].
  intros Hd. split.
  - apply lookup_lt_Some in Hd. lia.
  - apply list_elem_of_lookup. eauto.
Qed.

Lemma prevIndex_nonneg (env : Env) (force : bool) (currentIndex : Z) :
  (0 <= prevIndex env force currentIndex)%Z.
Proof. unfold prevIndex. destruct (_ || _ || _); lia. Qed.

Lemma scrollToPage_cases (env : Env) (animated : bool) (r : Refs) (off : Q) (i : Z) :
  (truthy (at_index (visibleDatesArray env) i) = false \/ isScrollable env off = false) /\
  scrollToPage env animated r off i = (cleared r, [])
  \/
  exists d, at_index (visibleDatesArray env) i = Some d /\ d <> 0%Z /\
    isScrollable env off = true /\
    scrollToPage env animated r off i =
      ({| triggerDateChanged := Some d; scrollType := calendarGrid;
          visibleDateUnix := visibleDateUnix r |},
       [ {| sc_ref := gridListRef; sc_x := off; sc_y := 0; sc_animated := animated |} ]).
Proof.
  unfold scrollToPage. cbv zeta.
  destruct (at_index (visibleDatesArray env) i) as [d|] eqn:Hat; simpl.
  - destruct (Z.eqb_spec d 0) as [->|Hd]; simpl; [left; auto|].
    destruct (isScrollable env off); simpl; [right | left; auto].
    exists d. auto.
  - left. auto.
Qed.


Lemma page_guards_intro (env : Env) (animated force : bool) (r : Refs) (target : Z) :
  page_guards env force r target
    (if truthy (triggerDateChanged r) then (r, [])
     else if (indexOf (visibleDatesArray env) (visibleDateUnix r) =? -1)%Z then (r, [])
     else scrollToPage env animated r (nextOffset env force target) target).
Proof.
  unfold page_guards, quiet. cbv zeta.
  destruct (truthy (triggerDateChanged r)) eqn:Hpending.
  { repeat split; simpl; auto; try discriminate.
    intros c Hc. inversion Hc. }
  destruct (Z.eqb_spec (indexOf (visibleDatesArray env) (visibleDateUnix r)) (-1))
    as [Hcur|Hcur].
  { repeat split; simpl; auto; try discriminate; try contradiction.
    intros c Hc. inversion Hc. }
  destruct (scrollToPage_cases env animated r (nextOffset env force target) target)
    as [[Hwhy ->] | (d & Hat & Hd & Hsc & ->)].
  - repeat split; simpl; auto; try discriminate; try contradiction.
    intros c Hc. inversion Hc.
  - assert (Htr : truthy (at_index (visibleDatesArray env) target) = true).
    { rewrite Hat. simpl. destruct (Z.eqb_spec d 0); [contradiction | reflexivity]. }
    rewrite Htr, Hsc. repeat split; simpl; try discriminate; try contradiction.
    + intros _ _ [H|H]; discriminate.
    + intros c Hc. apply list_elem_of_singleton in Hc. subst c.
      exists d. destruct (at_index_Some _ _ _ Hat) as [Hrange _].
      repeat split; auto; lia.
Qed.

(** C8, as the code has it. [goToPrevPage] never aims below position 0.
    Both callbacks issue no scroll when a page change is pending, when
    the current date is not in [visibleDatesArray], when there is no
    date at the target position, or when the target offset is not
    scrollable. In the first two cases the refs are left as they were,
    so a pending [triggerDateChanged] stays set; in the last two
    [triggerDateChanged] is cleared. A scroll is issued only towards a
    position inside the list, and [triggerDateChanged] then holds the
    date found there. *)
Theorem page_navigation_guards (env : Env) (animated forceScrollByDay : option bool)
    (r : Refs) :
  let force := default false forceScrollByDay in
  let currentIndex := indexOf (visibleDatesArray env) (visibleDateUnix r) in
  (0 <= prevIndex env force currentIndex)%Z /\
  page_guards env force r (nextIndex env force currentIndex)
    (goToNextPage env animated forceScrollByDay r) /\
  page_guards env force r (prevIndex env force currentIndex)
    (goToPrevPage env animated forceScrollByDay r).
Proof.
  cbv zeta. split; [apply prevIndex_nonneg|].
  split; apply page_guards_intro.
Qed.


Lemma page_navigation_guards_witness :
  goToNextPage sample_env None None pending_refs = (pending_refs, []) /\
  goToPrevPage sample_env None None pending_refs = (pending_refs, []).
Proof.
  destruct (page_navigation_guards sample_env None None pending_refs)
    as (_ & (Hnext & _) & (Hprev & _)).
  split; [apply Hnext | apply Hprev]; evaluate.
Defined.

(** C8, as the specification words it, fails: called while a page change
    is pending, neither callback leaves [triggerDateChanged] unset; the
    pending date is still in it afterwards. *)
Lemma pending_change_stays_set :
  truthy (triggerDateChanged pending_refs) = true /\
  triggerDateChanged (fst (goToNextPage sample_env None None pending_refs))
    = Some 172800000%Z /\
  triggerDateChanged (fst (goToPrevPage sample_env None None pending_refs))
    = Some 172800000%Z /\
  triggerDateChanged (fst (goToNextPage sample_env None None pending_refs)) <> None.
Proof. evaluate. Qed.

(** From the first day, the next page is the second day, and the
    previous page stays on the first. *)
Example next_page_scrolls :
  goToNextPage sample_env None None sample_refs =
  ({| triggerDateChanged := Some 172800000%Z; scrollType := calendarGrid;
      visibleDateUnix := 86400000 |},
   [ {| sc_ref := gridListRef; sc_x := 50; sc_y := 0; sc_animated := true |} ]).
Proof. reflexivity. Qed.

Example prev_page_stops_at_first :
  sc_x <$> snd (goToPrevPage sample_env None None sample_refs) = [0].
Proof. reflexivity. Qed.

(** *** Hit testing *)

Lemma hit_in_band (cw tx : Q) (i : EventItem.Internal) :
  hit cw tx i = true <-> in_band cw tx i.
Proof.
  unfold hit, in_band. cbv zeta.
  rewrite andb_true_iff, !Qle_bool_iff.
  assert (E1 : EventItem.index i * (cw / EventItem.total i)
               == EventItem.index i * cw / EventItem.total i).
  { unfold Qdiv. ring. }
  assert (E2 : EventItem.index i * (cw / EventItem.total i) + cw / EventItem.total i
               == (EventItem.index i + 1) * cw / EventItem.total i).
  { unfold Qdiv. ring. }
  split; intros [A B]; split.
  - rewrite <- E1. exact A.
  - rewrite <- E2. exact B.
  - rewrite E1. exact A.
  - rewrite E2. exact B.
Qed.

Lemma spread_delete (h : heap) (l : loc) (o : EventObj) :
  h !! l = Some o ->
  exists l', spread h l = Some (<[l' := o]> h, l') /\
    h !! l' = None /\
    delete_internal (<[l' := o]> h) l' !! l' = Some (stripped o) /\
    (forall k, k <> l' -> delete_internal (<[l' := o]> h) l' !! k = h !! k).
Proof.
  intros Hl. exists (fresh (dom h)). unfold spread. rewrite Hl.
  split; [reflexivity|].
  assert (Hfresh : h !! fresh (dom h) = None).
  { apply not_elem_of_dom. apply is_fresh. }
  split; [exact Hfresh|]. unfold delete_internal. split.
  - rewrite lookup_alter_eq, lookup_insert_eq. reflexivity.
  - intros k Hk. rewrite lookup_alter_ne, lookup_insert_ne by congruence.
    reflexivity.
Qed.

Lemma scan_events_miss (h : heap) (cw tx : Q) (evs : list loc) :
  (forall l, l ∈ evs -> exists o i, h !! l = Some o /\ _internal o = Some i /\
                                   ~ in_band cw tx i) ->
  scan_events h cw tx evs = Normal (h, None).
Proof.
  induction evs as [|l evs IH]; intros Hall; simpl; [reflexivity|].
  destruct (Hall l) as (o & i & Hl & Hi & Hout); [left|].
  rewrite Hl. simpl. rewrite Hi.
  destruct (hit cw tx i) eqn:Hhit.
  - apply hit_in_band in Hhit. contradiction.
  - apply IH. intros k Hk. apply Hall. right. exact Hk.
Qed.

Lemma scan_events_result (h : heap) (cw tx : Q) (evs : list loc) (h' : heap)
    (res : option loc) :
  scan_events h cw tx evs = Normal (h', res) ->
  match res with
  | None => h' = h
  | Some l' =>
      exists l o i, l ∈ evs /\ h !! l = Some o /\ _internal o = Some i /\
        in_band cw tx i /\
        h !! l' = None /\ h' !! l' = Some (stripped o) /\
        (forall k, k <> l' -> h' !! k = h !! k)
  end.
Proof.
  induction evs as [|l evs IH]; simpl.
  - intros [= <- <-]. reflexivity.
  - destruct (h !! l) as [o|] eqn:Hl; simpl; [|discriminate].
    destruct (_internal o) as [i|] eqn:Hi; [|discriminate].
    destruct (hit cw tx i) eqn:Hhit.
    + destruct (spread_delete h l o Hl) as (l' & -> & Hfresh & Hnew & Hold).
      intros [= <- <-]. exists l, o, i.
      apply hit_in_band in Hhit.
      split; [left|]. do 4 (split; [assumption|]). split; assumption.
    + intros Hrest. specialize (IH Hrest). destruct res as [l'|]; [|exact IH].
      destruct IH as (l0 & o0 & i0 & Hin & H0).
      exists l0, o0, i0. split; [right; exact Hin | exact H0].
Qed.

(** C9. [getEventByOffset] returns null when no date can be resolved at
    the offset, and when none of that date's events has a band
    [index * columnWidth / total .. (index + 1) * columnWidth / total]
    that contains the x coordinate taken within its column; in both
    cases nothing is written. When it returns an event, that event is a
    new object holding the fields of a stored event whose band contains
    the coordinate, without [_internal], and every object that existed
    before, the stored event among them, is as it was. *)
Theorem getEventByOffset_result (dateTimeToISOString : DateTime -> string)
    (eventsRef : option (string -> option (list loc)))
    (env : Env) (r : Refs) (h : heap) (position : Position) :
  let cw := columnWidth env in
  let tx := targetX env position in
  let result := getEventByOffset dateTimeToISOString eventsRef env r h position in
  (getDateByOffset env r position = None -> result = Normal (h, None)) /\
  (forall date, getDateByOffset env r position = Some date ->
   (forall l, l ∈ eventsByDate dateTimeToISOString eventsRef date ->
      exists o i, h !! l = Some o /\ _internal o = Some i /\ ~ in_band cw tx i) ->
   result = Normal (h, None)) /\
  (forall h', result = Normal (h', None) -> h' = h) /\
  (forall h' l', result = Normal (h', Some l') ->
   exists date l o i,
     getDateByOffset env r position = Some date /\
     l ∈ eventsByDate dateTimeToISOString eventsRef date /\
     h !! l = Some o /\ _internal o = Some i /\
     in_band cw tx i /\
     h !! l' = None /\
     h' !! l' = Some (stripped o) /\
     (forall k, k <> l' -> h' !! k = h !! k)).
Proof.
  cbv zeta. unfold getEventByOffset.
  destruct (getDateByOffset env r position) as [date|].
  - split; [discriminate|]. split; [|split].
    + intros d [= <-] Hall. apply scan_events_miss. exact Hall.
    + intros h' Hres. exact (scan_events_result _ _ _ _ _ _ Hres).
    + intros h' l' Hres. exists date.
      destruct (scan_events_result _ _ _ _ _ _ Hres) as (l & o & i & Hfound).
      exists l, o, i. split; [reflexivity | exact Hfound].
  - split; [reflexivity|]. split; [discriminate|]. split.
    + intros h' [= <-]. reflexivity.
    + intros h' l' [=].
Qed.

Lemma getEventByOffset_result_witness :
  getEventByOffset sample_iso sample_eventsRef sample_env sample_refs sample_heap
    {| pos_x := 500; pos_y := 100 |} = Normal (sample_heap, None) /\
  exists date l o i,
    getDateByOffset sample_env sample_refs {| pos_x := 30; pos_y := 100 |} = Some date /\
    l ∈ eventsByDate sample_iso sample_eventsRef date /\
    sample_heap !! l = Some o /\ _internal o = Some i /\
    in_band (columnWidth sample_env)
      (targetX sample_env {| pos_x := 30; pos_y := 100 |}) i /\
    sample_heap !! 2%positive = None /\
    delete_internal (<[2%positive := sample_object]> sample_heap) 2%positive
      !! 2%positive = Some (stripped o) /\
    (forall k, k <> 2%positive ->
       delete_internal (<[2%positive := sample_object]> sample_heap) 2%positive !! k
       = sample_heap !! k).
Proof.
  split.
  - destruct (getEventByOffset_result sample_iso sample_eventsRef sample_env
                sample_refs sample_heap {| pos_x := 500; pos_y := 100 |})
      as (Hnodate & _).
    apply Hnodate. evaluate.
  - destruct (getEventByOffset_result sample_iso sample_eventsRef sample_env
                sample_refs sample_heap {| pos_x := 30; pos_y := 100 |})
      as (_ & _ & _ & Hfound).
    apply Hfound. evaluate.
Defined.

(** A tap in the left half of the column misses the sample event, which
    sits in the right half. *)
Example left_half_misses :
  getEventByOffset sample_iso sample_eventsRef sample_env sample_refs sample_heap
    {| pos_x := 10; pos_y := 100 |} = Normal (sample_heap, None).
Proof. vm_compute. reflexivity. Qed.

End ContainerFacts.

(** ** More facts about EventItem *)

Section EventItemMore.
Import EventItem EventItemDays.
Local Open Scope Q_scope.

(** *** Day columns *)

Lemma day_steps_exact (from : Z) (k : nat) :
  day_steps from (from + Z.of_nat k * MILLISECONDS_IN_DAY) = k.
Proof.
  unfold day_steps, MILLISECONDS_IN_DAY.
  replace (from + Z.of_nat k * 86400000 - from + 86400000 - 1)%Z
    with (86400000 - 1 + Z.of_nat k * 86400000)%Z by lia.
  rewrite Z.div_add by lia.
  rewrite Z.div_small by lia. lia.
Qed.

Lemma hidden_days_bounds (vd : gmap Z VisibleDate) (k : nat) : forall from,
  (0 <= hidden_days vd from k <= Z.of_nat k)%Z.
Proof.
  induction k as [|k IH]; intros from; simpl hidden_days; [lia|].
  specialize (IH (from + MILLISECONDS_IN_DAY)%Z).
  destruct (vd !! from); lia.
Qed.

Lemma for_days_hidden (vd : gmap Z VisibleDate) (step : Z) (k : nat) :
  forall from acc,
  for_days k from (from + Z.of_nat k * MILLISECONDS_IN_DAY)
    (skip_hidden vd step) acc
  = (acc + step * hidden_days vd from k)%Z.
Proof.
  induction k as [|k IH]; intros from acc.
  - simpl. lia.
  - cbn [for_days hidden_days].
    destruct (Z.ltb_spec from (from + Z.of_nat (S k) * MILLISECONDS_IN_DAY))
      as [_|Hge]; [|unfold MILLISECONDS_IN_DAY in Hge; lia].
    replace (from + Z.of_nat (S k) * MILLISECONDS_IN_DAY)%Z
      with (from + MILLISECONDS_IN_DAY + Z.of_nat k * MILLISECONDS_IN_DAY)%Z by lia.
    rewrite IH. unfold skip_hidden. destruct (vd !! from); lia.
Qed.

(** X1. For an event that starts a whole number [k] of days after
    [startUnix], [diffDays] is [k] minus the number of days without an
    entry in [visibleDates] among the [k] days from [startUnix] on, so it
    lies in [0 .. k]; for an event [k] days before [startUnix] it is
    [-k] plus the number of such days from the event's day on, so it
    lies in [-k .. 0]. *)
Theorem diffDays_counts_visible_days (b : Body) (p : Props) (k : nat) :
  (eventStartUnix (event p)
   = startUnix p + Z.of_nat k * MILLISECONDS_IN_DAY ->
   diffDays (data b p)
   = Z.of_nat k - hidden_days (visibleDates p) (startUnix p) k /\
   0 <= diffDays (data b p) <= Z.of_nat k)%Z /\
  (startUnix p
   = eventStartUnix (event p) + Z.of_nat k * MILLISECONDS_IN_DAY ->
   diffDays (data b p)
   = - Z.of_nat k + hidden_days (visibleDates p) (eventStartUnix (event p)) k /\
   - Z.of_nat k <= diffDays (data b p) <= 0)%Z.
Proof.
  split; intros He.
  - assert (Hd : diffDays (data b p)
      = (Z.of_nat k - hidden_days (visibleDates p) (startUnix p) k)%Z).
    { unfold data. cbv zeta. destruct (Qlt_le_dec _ _); simpl;
      (destruct (Z.ltb_spec (eventStartUnix (event p)) (startUnix p)) as [Hlt|_];
       [unfold MILLISECONDS_IN_DAY in He; lia|]);
      rewrite He, day_steps_exact, for_days_hidden;
      replace (startUnix p + Z.of_nat k * MILLISECONDS_IN_DAY - startUnix p)%Z
        with (Z.of_nat k * MILLISECONDS_IN_DAY)%Z by lia;
      rewrite Z.div_mul by (unfold MILLISECONDS_IN_DAY; lia); lia. }
    pose proof (hidden_days_bounds (visibleDates p) k (startUnix p)). lia.
  - assert (Hd : diffDays (data b p)
      = (- Z.of_nat k + hidden_days (visibleDates p) (eventStartUnix (event p)) k)%Z).
    { destruct k as [|k].
      - assert (He' : startUnix p = eventStartUnix (event p)) by (simpl in He; lia).
        unfold data. cbv zeta. destruct (Qlt_le_dec _ _); simpl;
        rewrite He', Z.ltb_irrefl, Z.sub_diag; unfold day_steps;
        rewrite Z.sub_diag; reflexivity.
      - unfold data. cbv zeta. destruct (Qlt_le_dec _ _); simpl;
        (destruct (Z.ltb_spec (eventStartUnix (event p)) (startUnix p)) as [_|Hge];
         [|unfold MILLISECONDS_IN_DAY in He; lia]);
        rewrite He, day_steps_exact, for_days_hidden;
        replace (eventStartUnix (event p)
                 - (eventStartUnix (event p) + Z.of_nat (S k) * MILLISECONDS_IN_DAY))%Z
          with (- Z.of_nat (S k) * MILLISECONDS_IN_DAY)%Z by lia;
        rewrite Z.div_mul by (unfold MILLISECONDS_IN_DAY; lia);
        rewrite Z.mul_1_l; reflexivity. }
    pose proof (hidden_days_bounds (visibleDates p) k (eventStartUnix (event p))). lia.
Qed.


Lemma diffDays_counts_visible_days_witness :
  (diffDays (data sample_body early_event)
   = 3 - hidden_days sample_visibleDates 0 3 /\
   0 <= diffDays (data sample_body early_event) <= 3)%Z.
Proof.
  destruct (diffDays_counts_visible_days sample_body early_event 3) as [Hafter _].
  apply Hafter. reflexivity.
Defined.

(** *** Vertical extent *)

(** X2. The start drawn is never negative and the duration drawn never
    exceeds the event's duration nor the length of the grid; for an
    event no longer than the grid, cutting its start leaves its end in
    place: start drawn plus duration drawn is
    [startMinutes + duration - start]. *)
Theorem rendered_span (b : Body) (p : Props) :
  let sm := default 0 (startMinutes (event p)) in
  0 <= newStart (data b p) /\
  totalDuration (data b p) <= duration (event p) /\
  totalDuration (data b p) <= end_ b - start b /\
  (duration (event p) <= end_ b - start b ->
   newStart (data b p) + totalDuration (data b p)
   == sm + duration (event p) - start b).
Proof.
  cbv zeta.
  pose proof (Q.le_min_l (duration (event p)) (end_ b - start b)) as Hl.
  pose proof (Q.le_min_r (duration (event p)) (end_ b - start b)) as Hr.
  destruct (data_cases b p) as [(Hlt & Hd & Hn) | (Hge & Hd & Hn)];
    cbv zeta in *; rewrite Hd, Hn.
  - repeat split; try lra. intros Hfits. rewrite (Q.min_l _ _ Hfits). ring.
  - repeat split; try lra. intros Hfits. rewrite (Q.min_l _ _ Hfits). ring.
Qed.

Lemma rendered_span_witness :
  newStart (data morning_body early_event) + totalDuration (data morning_body early_event)
  == 420 + 120 - 480.
Proof.
  destruct (rendered_span morning_body early_event) as (_ & _ & _ & Hend).
  apply Hend. evaluate.
Defined.

(** *** Horizontal extent *)

(** X3. In a group of [t] events of span 1 in one column, the event in
    slot 0 starts at the left edge of the column, the event in the next
    slot starts exactly [overlapEventsSpacing] after its neighbour ends,
    and the event in slot [t - 1] ends [rightEdgeSpacing] before the
    right edge of the column. *)
Theorem group_is_tight (b : Body) (t : Q) (p q : Props) :
  1 <= t ->
  total (event p) == t -> columnSpan (event p) == 1 ->
  total (event q) == t -> columnSpan (event q) == 1 ->
  diffDays (data b p) = diffDays (data b q) ->
  (index (event p) == 0 -> eventPosX b p == columnLeft b p) /\
  (index (event q) == index (event p) + 1 ->
   eventPosX b q - (eventPosX b p + eventWidth b p) == overlapEventsSpacing b) /\
  (index (event p) == t - 1 ->
   eventPosX b p + eventWidth b p
   == columnLeft b p + columnWidthAnim b - rightEdgeSpacing b).
Proof.
  intros Ht Htp Hsp Htq Hsq Hdd.
  pose proof (eventWidth_single_span b p t Htp Hsp) as Hwp.
  pose proof (eventWidth_single_span b q t Htq Hsq) as Hwq.
  unfold eventPosX, columnLeft. cbv zeta. rewrite <- Hdd.
  set (L := inject_Z (diffDays (data b p)) * columnWidthAnim b).
  rewrite Hwq, <- Hwp. set (w := eventWidth b p) in *.
  split; [|split]; intros Hi; rewrite Hi.
  - ring.
  - ring.
  - assert (Htw : t * w == columnWidthAnim b - rightEdgeSpacing b
                           - (t - 1) * overlapEventsSpacing b).
    { rewrite Hwp. field. lra. }
    lra.
Qed.

Lemma group_is_tight_witness :
  eventPosX sample_body (sample_event 2 1)
  - (eventPosX sample_body (sample_event 2 0) + eventWidth sample_body (sample_event 2 0))
  == overlapEventsSpacing sample_body.
Proof.
  refine (proj1 (proj2 (group_is_tight sample_body 2 (sample_event 2 0)
                          (sample_event 2 1) _ _ _ _ _ _)) _); evaluate.
Defined.

(** X4. The style handed to the view puts [left] one unit after
    [eventPosX]. For an event of span 1 in a slot of its group, with a
    width that is not negative, the rectangle starts strictly inside the
    column; it ends inside the column when [rightEdgeSpacing >= 1], and
    for the last slot it sticks out on the right when
    [rightEdgeSpacing < 1]. *)
Theorem rendered_inside_column (b : Body) (t : Q) (p : Props) :
  0 <= overlapEventsSpacing b -> 1 <= t ->
  total (event p) == t -> columnSpan (event p) == 1 ->
  0 <= index (event p) -> index (event p) <= t - 1 ->
  0 <= eventWidth b p ->
  columnLeft b p < st_left (animView b p) /\
  (1 <= rightEdgeSpacing b ->
   st_left (animView b p) + st_width (animView b p)
   <= columnLeft b p + columnWidthAnim b) /\
  (index (event p) == t - 1 -> rightEdgeSpacing b < 1 ->
   columnLeft b p + columnWidthAnim b
   < st_left (animView b p) + st_width (animView b p)).
Proof.
  intros Hs Ht Htp Hsp Hi0 Hi1 Hw0.
  pose proof (eventWidth_single_span b p t Htp Hsp) as Hw.
  unfold animView, eventPosX, columnLeft. cbn [st_left st_width]. cbv zeta.
  set (L := inject_Z (diffDays (data b p)) * columnWidthAnim b).
  set (w := eventWidth b p) in *.
  assert (Htw : t * w == columnWidthAnim b - rightEdgeSpacing b
                         - (t - 1) * overlapEventsSpacing b).
  { rewrite Hw. field. lra. }
  assert (H0 : 0 <= (w + overlapEventsSpacing b) * index (event p)) by nra.
  split; [lra|]. split.
  - intros Hr.
    assert (0 <= (w + overlapEventsSpacing b) * (t - 1 - index (event p))) by nra.
    nra.
  - intros Hlast Hr. rewrite Hlast. nra.
Qed.

Lemma rendered_inside_column_witness :
  st_left (animView sample_body (sample_event 2 1))
  + st_width (animView sample_body (sample_event 2 1))
  <= columnLeft sample_body (sample_event 2 1) + columnWidthAnim sample_body.
Proof.
  refine (proj1 (proj2 (rendered_inside_column sample_body 2 (sample_event 2 1)
                          _ _ _ _ _ _ _)) _); evaluate.
Defined.

End EventItemMore.

(** ** More facts about CalendarContainer *)

Section ContainerMore.
Import CalendarContainer ContainerRest.
Local Open Scope Q_scope.

(** *** Day counts *)

(** X5. When rendering does not throw, [daysToShow] is 7 minus the
    number of hidden week days, the number of days shown is at most 7,
    at most [daysToShow] and at most [columns]; [isSingleDay] holds
    exactly when one day is shown, and [columns] is 1 then and
    [daysToShow] otherwise. *)
Theorem render_days_invariants (n : option Q) (hide : list Z) (d : Days) :
  render_days n hide = Normal d ->
  daysToShow d = (7 - Z.of_nat (length hide))%Z /\
  numberOfDays d <= 7 /\
  numberOfDays d <= inject_Z (daysToShow d) /\
  numberOfDays d <= inject_Z (columns d) /\
  (isSingleDay d = true <-> numberOfDays d == 1) /\
  (columns d = if isSingleDay d then 1%Z else daysToShow d).
Proof.
  unfold render_days.
  destruct (Qlt_le_dec 7 (default 7 n)) as [|Hle]; [discriminate|].
  intros [= <-]. cbn [daysToShow numberOfDays isSingleDay columns].
  set (shown := (7 - Z.of_nat (length hide))%Z).
  set (nd := if Qlt_le_dec (inject_Z shown) (default 7 n)
             then inject_Z shown else default 7 n).
  assert (Hnd7 : nd <= 7) by (subst nd; destruct (Qlt_le_dec _ _); lra).
  assert (Hnds : nd <= inject_Z shown)
    by (subst nd; destruct (Qlt_le_dec _ _); lra).
  split; [reflexivity|]. split; [exact Hnd7|]. split; [exact Hnds|].
  split; [|split; [apply Qeq_bool_iff | reflexivity]].
  destruct (Qeq_bool nd 1) eqn:E; [|exact Hnds].
  apply Qeq_bool_eq in E. rewrite E. apply Qle_refl.
Qed.

Lemma render_days_invariants_witness :
  exists d, render_days (Some 3) [0; 6]%Z = Normal d /\
            numberOfDays d <= inject_Z (columns d).
Proof.
  eexists. split; [reflexivity|].
  refine (proj1 (proj2 (proj2 (proj2 (render_days_invariants (Some 3) [0; 6]%Z _ _))))).
  reflexivity.
Defined.

(** X6. Hiding all seven week days (with a positive [numberOfDays]
    prop) leaves no day to show: [numberOfDays] and [columns] are both 0
    and the calendar is not in single-day mode. *)
Theorem all_days_hidden (n : option Q) (hide : list Z) (d : Days) :
  render_days n hide = Normal d ->
  length hide = 7%nat -> 0 < default 7 n ->
  numberOfDays d == 0 /\ isSingleDay d = false /\ columns d = 0%Z.
Proof.
  unfold render_days.
  destruct (Qlt_le_dec 7 (default 7 n)) as [|Hle]; [discriminate|].
  intros [= <-] Hlen Hpos. cbn [daysToShow numberOfDays isSingleDay columns].
  rewrite Hlen. change (7 - Z.of_nat 7)%Z with 0%Z.
  destruct (Qlt_le_dec (inject_Z 0) (default 7 n)) as [_|Hge].
  - repeat split; reflexivity.
  - exfalso. change (inject_Z 0) with 0 in Hge. lra.
Qed.

Lemma all_days_hidden_witness :
  exists d, render_days None [0; 1; 2; 3; 4; 5; 6]%Z = Normal d /\
            numberOfDays d == 0 /\ isSingleDay d = false /\ columns d = 0%Z.
Proof.
  eexists. split; [reflexivity|].
  apply (all_days_hidden None [0; 1; 2; 3; 4; 5; 6]%Z); evaluate.
Defined.

(** *** The hideWeekDays effect *)

Lemma every_same_spec (l ref : list Z) : forall index,
  every_same index l ref = true <->
  forall i v, l !! i = Some v -> ref !! (index + i)%nat = Some v.
Proof.
  induction l as [|x l IH]; intros index; simpl.
  - split; [intros _ i v Hi; destruct i; discriminate | reflexivity].
  - rewrite andb_true_iff, IH. split.
    + intros [Hx Hrest] [|i] v Hi; simpl in Hi.
      * injection Hi as <-. rewrite Nat.add_0_r.
        destruct (ref !! index) as [w|]; [|discriminate].
        apply Z.eqb_eq in Hx. congruence.
      * rewrite <- Nat.add_succ_comm. exact (Hrest i v Hi).
    + intros H. split.
      * pose proof (H 0%nat x eq_refl) as H0. rewrite Nat.add_0_r in H0.
        rewrite H0. apply Z.eqb_refl.
      * intros i v Hi. rewrite Nat.add_succ_comm. exact (H (S i) v Hi).
Qed.

(** X7. The effect on [initialHideWeekDays] keeps the state and the ref
    equal to the prop (the empty list when absent), element by element,
    whenever they were equal to each other before: lists of different
    length or with one differing element are replaced, equal lists are
    kept. *)
Theorem syncHideWeekDays_follows_prop (initial : option (list Z)) (st : HiddenDays) :
  hideWeekDays st = hideWeekDaysRef st ->
  syncHideWeekDays initial st
  = {| hideWeekDaysRef := default [] initial; hideWeekDays := default [] initial |}.
Proof.
  intros Hinv. unfold syncHideWeekDays. cbv zeta.
  destruct (Nat.eqb_spec (length (default [] initial)) (length (hideWeekDaysRef st)))
    as [Hlen|_]; [|reflexivity].
  destruct (every_same 0 (default [] initial) (hideWeekDaysRef st)) eqn:Hsame;
    [|reflexivity].
  simpl. destruct st as [ref state]. simpl in *. subst state.
  assert (E : default [] initial = ref).
  { apply list_eq_same_length with (length ref); [reflexivity | exact Hlen |].
    intros i x y _ Hx Hy.
    apply (proj1 (every_same_spec _ _ 0%nat) Hsame) in Hx. simpl in Hx. congruence. }
  rewrite E. reflexivity.
Qed.

Lemma syncHideWeekDays_follows_prop_witness :
  syncHideWeekDays (Some [0; 6]%Z) {| hideWeekDaysRef := [6]%Z; hideWeekDays := [6]%Z |}
  = {| hideWeekDaysRef := [0; 6]%Z; hideWeekDays := [0; 6]%Z |}.
Proof. apply (syncHideWeekDays_follows_prop (Some [0; 6]%Z)). reflexivity. Defined.


(** *** indexOf and array reads *)

Lemma indexOf_from_spec (l : list Z) (x : Z) : forall i,
  (0 <= i)%Z ->
  (indexOf_from l x i = (-1)%Z /\ x ∉ l) \/
  (exists k : nat, indexOf_from l x i = (i + Z.of_nat k)%Z /\ l !! k = Some x /\
     forall j, (j < k)%nat -> l !! j <> Some x).
Proof.
  induction l as [|y l IH]; intros i Hi; simpl.
  - left. split; [reflexivity | apply not_elem_of_nil].
  - destruct (Z.eqb_spec y x) as [->|Hne].
    + right. exists 0%nat. split; [lia|]. split; [reflexivity|]. intros j Hj. lia.
    + destruct (IH (i + 1)%Z ltac:(lia)) as [[Hm Hnot] | (k & Hk & Hlk & Hfirst)].
      * left. split; [exact Hm|]. rewrite not_elem_of_cons. split; congruence.
      * right. exists (S k). split; [lia|]. split; [exact Hlk|].
        intros [|j] Hj; simpl; [congruence | apply Hfirst; lia].
Qed.

Lemma indexOf_found (l : list Z) (x : Z) :
  indexOf l x <> (-1)%Z ->
  (0 <= indexOf l x < Z.of_nat (length l))%Z /\ at_index l (indexOf l x) = Some x.
Proof.
  intros Hne. unfold indexOf in *.
  destruct (indexOf_from_spec l x 0 ltac:(lia)) as [[Hm _] | (k & Hk & Hlk & _)];
    [contradiction|].
  rewrite Hk. pose proof (lookup_lt_Some _ _ _ Hlk). split; [lia|].
  unfold at_index. destruct (Z.ltb_spec (0 + Z.of_nat k) 0); [lia|].
  replace (Z.to_nat (0 + Z.of_nat k)) with k by lia. exact Hlk.
Qed.

Lemma indexOf_elem (l : list Z) (x : Z) : x ∈ l -> indexOf l x <> (-1)%Z.
Proof.
  intros Hin. unfold indexOf.
  destruct (indexOf_from_spec l x 0 ltac:(lia)) as [[_ Hnot] | (k & Hk & _)];
    [contradiction | lia].
Qed.

Lemma indexOf_NoDup (l : list Z) (x : Z) (k : nat) :
  NoDup l -> l !! k = Some x -> indexOf l x = Z.of_nat k.
Proof.
  intros Hnd Hk. unfold indexOf.
  destruct (indexOf_from_spec l x 0 ltac:(lia)) as [[_ Hnot] | (j & Hj & Hlj & _)].
  - exfalso. apply Hnot. apply list_elem_of_lookup. eauto.
  - rewrite Hj. rewrite (NoDup_lookup l j k x Hnd Hlj Hk). lia.
Qed.

Lemma at_index_nat (l : list Z) (k : nat) : at_index l (Z.of_nat k) = l !! k.
Proof.
  unfold at_index. destruct (Z.ltb_spec (Z.of_nat k) 0); [lia|].
  rewrite Nat2Z.id. reflexivity.
Qed.

(** *** Page navigation, continued *)

Lemma goToNextPage_shape (env : Env) (animated force : option bool) (r : Refs) :
  goToNextPage env animated force r
  = pageChange (nextIndex env (default false force)) env
      (default true animated) (default false force) r.
Proof. reflexivity. Qed.

Lemma goToPrevPage_shape (env : Env) (animated force : option bool) (r : Refs) :
  goToPrevPage env animated force r
  = pageChange (prevIndex env (default false force)) env
      (default true animated) (default false force) r.
Proof. reflexivity. Qed.

Lemma pageChange_keeps_date (target : Z -> Z) (env : Env) (a f : bool) (r : Refs) :
  visibleDateUnix (fst (pageChange target env a f r)) = visibleDateUnix r.
Proof.
  unfold pageChange. cbv zeta.
  destruct (truthy (triggerDateChanged r)); [reflexivity|].
  destruct (_ =? _)%Z; [reflexivity|].
  destruct (scrollToPage_cases env a r
    (nextOffset env f (target (indexOf (visibleDatesArray env) (visibleDateUnix r))))
    (target (indexOf (visibleDatesArray env) (visibleDateUnix r))))
    as [[_ ->] | (d & _ & _ & _ & ->)]; reflexivity.
Qed.

Lemma pageChange_scrolled_pending (target : Z -> Z) (env : Env) (a f : bool) (r : Refs) :
  snd (pageChange target env a f r) <> [] ->
  truthy (triggerDateChanged r) = false /\
  truthy (triggerDateChanged (fst (pageChange target env a f r))) = true.
Proof.
  unfold pageChange. cbv zeta.
  destruct (truthy (triggerDateChanged r)); [simpl; congruence|].
  destruct (_ =? _)%Z; [simpl; congruence|].
  destruct (scrollToPage_cases env a r
    (nextOffset env f (target (indexOf (visibleDatesArray env) (visibleDateUnix r))))
    (target (indexOf (visibleDatesArray env) (visibleDateUnix r))))
    as [[_ ->] | (d & _ & Hd & _ & ->)]; simpl; [congruence|].
  intros _. split; [reflexivity|].
  destruct (Z.eqb_spec d 0); [contradiction | reflexivity].
Qed.

Lemma pageChange_pending (target : Z -> Z) (env : Env) (a f : bool) (r : Refs) :
  truthy (triggerDateChanged r) = true -> pageChange target env a f r = (r, []).
Proof. intros H. unfold pageChange. rewrite H. reflexivity. Qed.

Lemma pageChange_again (target : Z -> Z) (env : Env) (a a' f : bool) (r : Refs) :
  pageChange target env a' f (fst (pageChange target env a f r))
  = (fst (pageChange target env a f r), []).
Proof.
  unfold pageChange at 1. cbv zeta. rewrite pageChange_keeps_date.
  unfold pageChange. cbv zeta.
  destruct (truthy (triggerDateChanged r)) eqn:Hp; simpl; [rewrite Hp; reflexivity|].
  destruct (Z.eqb_spec (indexOf (visibleDatesArray env) (visibleDateUnix r)) (-1))
    as [Hcur|Hcur]; simpl; [rewrite Hp; reflexivity|].
  set (t := target (indexOf (visibleDatesArray env) (visibleDateUnix r))).
  destruct (scrollToPage_cases env a r (nextOffset env f t) t)
    as [[Hwhy ->] | (d & Hat & Hd & Hsc & ->)]; simpl.
  - destruct (scrollToPage_cases env a' (cleared r) (nextOffset env f t) t)
      as [[_ E] | (d & Hat & Hd & Hsc & _)]; [exact E|].
    destruct Hwhy as [Hwhy|Hwhy]; [|congruence].
    rewrite Hat in Hwhy. simpl in Hwhy.
    destruct (Z.eqb_spec d 0); [contradiction | discriminate].
  - destruct (Z.eqb_spec d 0); [contradiction | reflexivity].
Qed.

(** X8. Calling [goToNextPage] (or [goToPrevPage]) a second time, with
    the same [forceScrollByDay], directly after a first call issues no
    scroll and leaves the refs as the first call left them. After a
    call that did scroll, any further call of either callback, with any
    arguments, does nothing. *)
Theorem page_change_once (env : Env) (animated force : option bool) (r : Refs) :
  (forall animated',
     goToNextPage env animated' force (fst (goToNextPage env animated force r))
     = (fst (goToNextPage env animated force r), []) /\
     goToPrevPage env animated' force (fst (goToPrevPage env animated force r))
     = (fst (goToPrevPage env animated force r), [])) /\
  (forall animated' force' out,
     out = goToNextPage env animated force r \/
     out = goToPrevPage env animated force r ->
     snd out <> [] ->
     goToNextPage env animated' force' (fst out) = (fst out, []) /\
     goToPrevPage env animated' force' (fst out) = (fst out, [])).
Proof.
  split.
  - intros animated'. rewrite !goToNextPage_shape, !goToPrevPage_shape.
    split; apply pageChange_again.
  - intros animated' force' out Hout Hscrolled.
    assert (Hpending : truthy (triggerDateChanged (fst out)) = true).
    { destruct Hout as [-> | ->];
        rewrite ?goToNextPage_shape, ?goToPrevPage_shape in *;
        apply pageChange_scrolled_pending; exact Hscrolled. }
    rewrite goToNextPage_shape, goToPrevPage_shape.
    split; apply pageChange_pending; exact Hpending.
Qed.

Lemma page_change_once_witness :
  goToPrevPage sample_env None (Some true)
    (fst (goToNextPage sample_env None None sample_refs))
  = (fst (goToNextPage sample_env None None sample_refs), []).
Proof.
  refine (proj2 (proj2 (page_change_once sample_env None None sample_refs)
                  None (Some true) _ (or_introl eq_refl) _)).
  evaluate.
Defined.


(** X9. With pairwise distinct dates, a starting date other than 0 (a
    date of 0 is falsy and is never scrolled to) and the same
    [forceScrollByDay] in both calls: if [goToNextPage] scrolls away
    from the date at position [i], then, once the calendar shows the
    date aimed at and no change is pending, [goToPrevPage] scrolls back
    to position [i], aiming at the date the first call started from
    (provided that offset is scrollable). *)
Theorem next_then_prev_returns (env : Env) (animated animated' force : option bool)
    (r r' : Refs) (i : nat) (d0 : Z) :
  NoDup (visibleDatesArray env) ->
  visibleDatesArray env !! i = Some d0 -> d0 <> 0%Z ->
  visibleDateUnix r = d0 ->
  snd (goToNextPage env animated force r) <> [] ->
  triggerDateChanged r' = None ->
  Some (visibleDateUnix r') = triggerDateChanged (fst (goToNextPage env animated force r)) ->
  isScrollable env (nextOffset env (default false force) (Z.of_nat i)) = true ->
  goToPrevPage env animated' force r'
  = ({| triggerDateChanged := Some d0; scrollType := calendarGrid;
        visibleDateUnix := visibleDateUnix r' |},
     [ {| sc_ref := gridListRef;
          sc_x := nextOffset env (default false force) (Z.of_nat i);
          sc_y := 0; sc_animated := default true animated' |} ]).
Proof.
  intros Hnd Hi Hd0 Hcur Hscrolled Hidle Hthere Hback.
  pose proof (indexOf_NoDup _ _ _ Hnd Hi) as Hidx.
  rewrite goToNextPage_shape in Hscrolled, Hthere.
  destruct (pageChange_scrolled_pending _ _ _ _ _ Hscrolled) as [Hp _].
  unfold pageChange in Hscrolled, Hthere. cbv zeta in Hscrolled, Hthere.
  rewrite Hp, Hcur, Hidx in Hscrolled, Hthere.
  destruct (Z.eqb_spec (Z.of_nat i) (-1)) as [|_]; [lia|].
  set (f := default false force) in *.
  destruct (scrollToPage_cases env (default true animated) r
              (nextOffset env f (nextIndex env f (Z.of_nat i)))
              (nextIndex env f (Z.of_nat i)))
    as [[_ E] | (d1 & Hat & Hd1 & _ & E)];
    rewrite E in Hscrolled, Hthere; simpl in Hscrolled, Hthere; [contradiction|].
  injection Hthere as Hthere.
  destruct (at_index_Some _ _ _ Hat) as [Hrange _].
  assert (Hnext : indexOf (visibleDatesArray env) d1 = nextIndex env f (Z.of_nat i)).
  { rewrite <- (Z2Nat.id (nextIndex env f (Z.of_nat i))) by lia.
    apply indexOf_NoDup; [exact Hnd|]. rewrite <- at_index_nat.
    rewrite Z2Nat.id by lia. exact Hat. }
  assert (Hprev : prevIndex env f (nextIndex env f (Z.of_nat i)) = Z.of_nat i).
  { unfold prevIndex, nextIndex. destruct (_ || _ || _); lia. }
  rewrite goToPrevPage_shape. fold f. unfold pageChange. cbv zeta.
  rewrite Hidle, Hthere, Hnext, Hprev. simpl truthy. cbv iota.
  destruct (Z.eqb_spec (nextIndex env f (Z.of_nat i)) (-1)) as [|_]; [lia|].
  unfold scrollToPage. cbv zeta. rewrite at_index_nat, Hi, Hback. simpl.
  destruct (Z.eqb_spec d0 0); [contradiction|]. simpl. rewrite ?Hthere. reflexivity.
Qed.

Lemma next_then_prev_returns_witness :
  goToPrevPage sample_env None None arrived_refs
  = ({| triggerDateChanged := Some 86400000%Z; scrollType := calendarGrid;
        visibleDateUnix := visibleDateUnix arrived_refs |},
     [ {| sc_ref := gridListRef; sc_x := nextOffset sample_env false 0;
          sc_y := 0; sc_animated := true |} ]).
Proof.
  apply (next_then_prev_returns sample_env None None None sample_refs
           arrived_refs 0%nat 86400000%Z);
    try evaluate.
  apply (bool_decide_unpack _). vm_compute. reflexivity.
Defined.

(** *** Offsets of pages *)

(** X10. With [columns > 0] and a column width that is not negative,
    the page offset computed for a day,
    [Math.floor(index / columns) * (columnWidth * columns)], is at or
    before the left edge of that day's column, and the column ends at or
    before the end of the page. *)
Theorem page_offsets_contain_day (env : Env) (i : Z) :
  (0 < columns (days env))%Z -> 0 <= columnWidth env ->
  pageOffset env i <= inject_Z i * columnWidth env /\
  (inject_Z i + 1) * columnWidth env
  <= pageOffset env i + columnWidth env * inject_Z (columns (days env)).
Proof.
  intros Hc Hw. unfold pageOffset. cbv zeta.
  set (c := columns (days env)) in *.
  pose proof (Z.div_mod i c ltac:(lia)) as Hdm.
  pose proof (Z.mod_pos_bound i c Hc) as Hm.
  set (q := (i / c)%Z) in *. set (m := (i mod c)%Z) in *.
  assert (Hi : inject_Z i == inject_Z c * inject_Z q + inject_Z m).
  { rewrite Hdm, inject_Z_plus, inject_Z_mult. reflexivity. }
  assert (Hm0 : 0 <= inject_Z m).
  { change 0 with (inject_Z 0). rewrite <- Zle_Qle. lia. }
  assert (Hm1 : inject_Z m + 1 <= inject_Z c).
  { change 1 with (inject_Z 1). rewrite <- inject_Z_plus, <- Zle_Qle. lia. }
  rewrite Hi. split; nra.
Qed.

Lemma page_offsets_contain_day_witness :
  pageOffset sample_env 9 <= inject_Z 9 * columnWidth sample_env /\
  (inject_Z 9 + 1) * columnWidth sample_env
  <= pageOffset sample_env 9 + columnWidth sample_env * inject_Z (columns (days sample_env)).
Proof. apply page_offsets_contain_day; evaluate. Defined.


(** X11. [initialOffset] is 0 when the nearest date has no entry in
    [visibleDates]; otherwise it is the entry's index times the column
    width when scrolling by day, and else the start of a page that
    contains the entry's column. *)
Theorem initialOffset_page (findNearestNumber : list Z -> Z -> Z) (env : Env)
    (visibleDates : gmap Z Z) (unix : Z) :
  let nearest := findNearestNumber (visibleDatesArray env) unix in
  (visibleDates !! nearest = None ->
   initialOffset findNearestNumber env visibleDates unix = 0) /\
  (forall i, visibleDates !! nearest = Some i ->
   isSingleDay (days env) || scrollByDay env = true ->
   initialOffset findNearestNumber env visibleDates unix = inject_Z i * colWidth env) /\
  (forall i, visibleDates !! nearest = Some i ->
   isSingleDay (days env) || scrollByDay env = false ->
   (0 < columns (days env))%Z -> 0 <= columnWidth env ->
   initialOffset findNearestNumber env visibleDates unix <= inject_Z i * columnWidth env /\
   (inject_Z i + 1) * columnWidth env
   <= initialOffset findNearestNumber env visibleDates unix
      + columnWidth env * inject_Z (columns (days env))).
Proof.
  cbv zeta. unfold initialOffset. cbv zeta. split; [|split].
  - intros ->. reflexivity.
  - intros i -> ->. reflexivity.
  - intros i -> -> Hc Hw. apply page_offsets_contain_day; assumption.
Qed.

(** *** goToDate *)

Section GoToDateFacts.
Variable findNearestNumber : list Z -> Z -> Z.

Lemma goToDate_grid (env : Env) (svh : Q) (date : ParsedDate)
    (props : option GoToDateOptions) (r : Refs) :
  let target := if negb (scrollByDay env) then weekMillis date else dayMillis date in
  let nearest := findNearestNumber (visibleDatesArray env) target in
  let index := indexOf (visibleDatesArray env) nearest in
  let offset := if isSingleDay (days env) || scrollByDay env
                then inject_Z index * colWidth env else pageOffset env index in
  let hour :=
    if default false (props ≫= hourScroll)
    then [ {| sc_ref := verticalListRef; sc_x := 0;
              sc_y := inject_Z (date_hour date * 60 + date_minute date) * minuteHeight env
                      - start env * minuteHeight env - svh / 2;
              sc_animated := default true (props ≫= animatedHour) |} ]
    else [] in
  (index <> (-1)%Z /\ isScrollable env offset = true /\
   goToDate findNearestNumber env svh date props r
   = ({| triggerDateChanged := Some nearest; scrollType := calendarGrid;
         visibleDateUnix := visibleDateUnix r |},
      {| sc_ref := gridListRef; sc_x := offset; sc_y := 0;
         sc_animated := default true (props ≫= animatedDate) |} :: hour))
  \/
  ((index = (-1)%Z \/ isScrollable env offset = false) /\
   goToDate findNearestNumber env svh date props r = (r, hour)).
Proof.
  cbv zeta. unfold goToDate. cbv zeta.
  destruct (Z.eqb_spec (indexOf (visibleDatesArray env)
     (findNearestNumber (visibleDatesArray env)
        (if negb (scrollByDay env) then weekMillis date else dayMillis date))) (-1))
    as [Hidx|Hidx]; simpl negb; cbv iota.
  - right. split; [left; exact Hidx|].
    destruct (default false (props ≫= hourScroll)); reflexivity.
  - destruct (isScrollable env _) eqn:Hsc.
    + left. split; [exact Hidx|]. split; [reflexivity|].
      destruct (default false (props ≫= hourScroll)); reflexivity.
    + right. split; [right; reflexivity|].
      destruct (default false (props ≫= hourScroll)); reflexivity.
Qed.

(** X12. [goToDate] scrolls the grid only to a date of
    [visibleDatesArray] at a scrollable offset, and then sets
    [triggerDateChanged] to that date; without a grid scroll the refs
    are left as they were. It scrolls the vertical list exactly when
    [hourScroll] is true. The scrolls it issues do not depend on the
    refs: a pending page change does not hold it back. *)
Theorem goToDate_effects (env : Env) (svh : Q) (date : ParsedDate)
    (props : option GoToDateOptions) (r : Refs) :
  let target := if negb (scrollByDay env) then weekMillis date else dayMillis date in
  let nearest := findNearestNumber (visibleDatesArray env) target in
  let out := goToDate findNearestNumber env svh date props r in
  (forall c, c ∈ snd out -> sc_ref c = gridListRef ->
     nearest ∈ visibleDatesArray env /\
     isScrollable env (sc_x c) = true /\
     fst out = {| triggerDateChanged := Some nearest; scrollType := calendarGrid;
                  visibleDateUnix := visibleDateUnix r |}) /\
  ((forall c, c ∈ snd out -> sc_ref c <> gridListRef) -> fst out = r) /\
  ((exists c, c ∈ snd out /\ sc_ref c = verticalListRef) <->
   default false (props ≫= hourScroll) = true) /\
  (forall r', snd (goToDate findNearestNumber env svh date props r') = snd out).
Proof.
  cbv zeta. split; [|split; [|split]].
  - destruct (goToDate_grid env svh date props r)
      as [(Hidx & Hsc & ->) | (Hwhy & ->)]; cbn [fst snd]; intros c Hc Hg.
    + destruct (indexOf_found _ _ Hidx) as [_ Hat]. apply at_index_Some in Hat.
      split; [apply Hat|]. split; [|reflexivity].
      apply elem_of_cons in Hc as [-> | Hc]; [exact Hsc|].
      destruct (default false (props ≫= hourScroll)).
      * apply list_elem_of_singleton in Hc. subst c. discriminate.
      * inversion Hc.
    + destruct (default false (props ≫= hourScroll)).
      * apply list_elem_of_singleton in Hc. subst c. discriminate.
      * inversion Hc.
  - destruct (goToDate_grid env svh date props r)
      as [(Hidx & Hsc & ->) | (Hwhy & ->)]; cbn [fst snd]; intros Hnone.
    + exfalso. eapply Hnone; [left | reflexivity].
    + reflexivity.
  - destruct (goToDate_grid env svh date props r)
      as [(Hidx & Hsc & ->) | (Hwhy & ->)]; cbn [fst snd];
      destruct (default false (props ≫= hourScroll)); split;
      try reflexivity; try discriminate.
    + intros _. eexists. split; [right; left | reflexivity].
    + intros (c & Hc & Hv). apply list_elem_of_singleton in Hc. subst c. discriminate.
    + intros _. eexists. split; [left | reflexivity].
    + intros (c & Hc & _). inversion Hc.
  - intros r'.
    destruct (goToDate_grid env svh date props r)
      as [(Hidx & Hsc & ->) | (Hwhy & ->)];
    destruct (goToDate_grid env svh date props r')
      as [(Hidx' & Hsc' & ->) | (Hwhy' & ->)]; cbn [fst snd]; try reflexivity.
    + destruct Hwhy'; congruence.
    + destruct Hwhy; congruence.
Qed.

(** X13. After a [goToDate] that scrolled the grid to a date other than
    0, [goToNextPage] and [goToPrevPage] do nothing. *)
Theorem goToDate_blocks_page_change (env : Env) (svh : Q) (date : ParsedDate)
    (props : option GoToDateOptions) (r : Refs) (animated force : option bool) :
  let target := if negb (scrollByDay env) then weekMillis date else dayMillis date in
  let out := goToDate findNearestNumber env svh date props r in
  findNearestNumber (visibleDatesArray env) target <> 0%Z ->
  (exists c, c ∈ snd out /\ sc_ref c = gridListRef) ->
  goToNextPage env animated force (fst out) = (fst out, []) /\
  goToPrevPage env animated force (fst out) = (fst out, []).
Proof.
  cbv zeta. intros Hnz Hgrid.
  assert (Hp : truthy (triggerDateChanged
                 (fst (goToDate findNearestNumber env svh date props r))) = true).
  { destruct (goToDate_grid env svh date props r)
      as [(_ & _ & E) | (_ & E)]; rewrite E in *; cbn [fst snd] in *.
    - simpl.
      match goal with
      | |- context [Z.eqb ?a 0] => destruct (Z.eqb_spec a 0)
      end; [contradiction | reflexivity].
    - exfalso. destruct Hgrid as (c & Hc & Hg).
      destruct (default false (props ≫= hourScroll)).
      + apply list_elem_of_singleton in Hc. subst c. discriminate.
      + inversion Hc. }
  rewrite goToNextPage_shape, goToPrevPage_shape.
  split; apply pageChange_pending; exact Hp.
Qed.

(** *** setVisibleDate and getDateByOffset *)

Lemma Qfloor_unit (x : Q) : 0 <= x -> x < 1 -> Qfloor x = 0%Z.
Proof.
  intros H0 H1.
  pose proof (Qfloor_le x) as Hle. pose proof (Qlt_floor x) as Hlt.
  assert (Ha : (Qfloor x < 1)%Z).
  { rewrite Zlt_Qlt. change (inject_Z 1) with 1. lra. }
  assert (Hb : (0 < Qfloor x + 1)%Z).
  { rewrite Zlt_Qlt. change (inject_Z 0) with 0. lra. }
  lia.
Qed.

(** X14. After [setVisibleDate], when the nearest date found is in
    [visibleDatesArray] and is not 0, a tap in the first column
    ([0 <= x < columnWidth]) resolves to that date. *)
Theorem setVisibleDate_then_getDateByOffset (env : Env) (date : ParsedDate)
    (r : Refs) (position : Position) :
  let nearest := findNearestNumber (visibleDatesArray env) (dayMillis date) in
  nearest ∈ visibleDatesArray env -> nearest <> 0%Z ->
  0 <= pos_x position -> pos_x position < columnWidth env ->
  exists dt,
    getDateByOffset env (setVisibleDate findNearestNumber env date r) position = Some dt /\
    dt_unix dt = nearest.
Proof.
  cbv zeta. intros Hin Hnz Hx0 Hx1.
  set (nearest := findNearestNumber (visibleDatesArray env) (dayMillis date)) in *.
  unfold getDateByOffset, setVisibleDate. cbv zeta. cbn [visibleDateUnix]. fold nearest.
  pose proof (indexOf_elem _ _ Hin) as Hidx.
  destruct (indexOf_found _ _ Hidx) as [_ Hat].
  destruct (Z.eqb_spec (indexOf (visibleDatesArray env) nearest) (-1)); [contradiction|].
  assert (Hcol : columnIndex env position = 0%Z).
  { unfold columnIndex. apply Qfloor_unit.
    - apply Qle_shift_div_l; lra.
    - apply Qlt_shift_div_r; lra. }
  rewrite Hcol, Z.add_0_r, Hat. simpl.
  destruct (Z.eqb_spec nearest 0); [contradiction|]. simpl.
  eexists. split; reflexivity.
Qed.

End GoToDateFacts.

Lemma goToDate_effects_witness :
  sample_nearest (visibleDatesArray sample_env) (dayMillis sample_date)
    ∈ visibleDatesArray sample_env /\
  isScrollable sample_env (inject_Z 1 * colWidth sample_env) = true /\
  fst (goToDate sample_nearest sample_env 600 sample_date None pending_refs)
  = {| triggerDateChanged := Some 172800000%Z; scrollType := calendarGrid;
       visibleDateUnix := visibleDateUnix pending_refs |}.
Proof.
  refine (proj1 (goToDate_effects sample_nearest sample_env 600 sample_date None
                   pending_refs)
            {| sc_ref := gridListRef; sc_x := inject_Z 1 * colWidth sample_env;
               sc_y := 0; sc_animated := true |} _ _).
  - left.
  - reflexivity.
Defined.

Lemma goToDate_blocks_page_change_witness :
  goToNextPage sample_env None None
    (fst (goToDate sample_nearest sample_env 600 sample_date None sample_refs))
  = (fst (goToDate sample_nearest sample_env 600 sample_date None sample_refs), []) /\
  goToPrevPage sample_env None None
    (fst (goToDate sample_nearest sample_env 600 sample_date None sample_refs))
  = (fst (goToDate sample_nearest sample_env 600 sample_date None sample_refs), []).
Proof.
  apply (goToDate_blocks_page_change sample_nearest sample_env 600 sample_date
           None sample_refs None None).
  - evaluate.
  - eexists. split; [left | reflexivity].
Defined.

Lemma setVisibleDate_then_getDateByOffset_witness :
  exists dt,
    getDateByOffset sample_env (setVisibleDate sample_nearest sample_env sample_date sample_refs)
      {| pos_x := 30; pos_y := 100 |} = Some dt /\
    dt_unix dt = sample_nearest (visibleDatesArray sample_env) (dayMillis sample_date).
Proof.
  apply (setVisibleDate_then_getDateByOffset sample_nearest sample_env sample_date
           sample_refs {| pos_x := 30; pos_y := 100 |}); try evaluate.
  vm_compute. right. left.
Defined.

Lemma initialOffset_page_witness :
  initialOffset sample_nearest sample_env {[ 172800000%Z := 1%Z ]} 172800000
  = inject_Z 1 * colWidth sample_env.
Proof.
  refine (proj1 (proj2 (initialOffset_page sample_nearest sample_env
                          {[ 172800000%Z := 1%Z ]} 172800000)) 1%Z _ _); reflexivity.
Defined.


(** *** Resolving a tap *)

Lemma floor_cell (x w : Q) :
  0 < w ->
  inject_Z (Qfloor (x / w)) * w <= x /\ x < (inject_Z (Qfloor (x / w)) + 1) * w.
Proof.
  intros Hw.
  pose proof (Qfloor_le (x / w)) as Hle. pose proof (Qlt_floor (x / w)) as Hlt.
  rewrite inject_Z_plus in Hlt. change (inject_Z 1) with 1 in Hlt.
  assert (Hx : x == x / w * w) by (field; lra).
  set (q := x / w) in *. set (f := inject_Z (Qfloor q)) in *.
  split; rewrite Hx; nra.
Qed.

(** X15. When [getDateByOffset] yields a date, the current date is in
    [visibleDatesArray], the day yielded is the non-zero entry
    [Math.floor(x / columnWidth)] positions after it, [x] lies in that
    column, and [y] lies in the minute yielded, counted from [start]. *)
Theorem getDateByOffset_sound (env : Env) (r : Refs) (position : Position)
    (dt : DateTime) :
  getDateByOffset env r position = Some dt ->
  let dayIndex := indexOf (visibleDatesArray env) (visibleDateUnix r) in
  let column := columnIndex env position in
  (0 <= dayIndex)%Z /\
  at_index (visibleDatesArray env) dayIndex = Some (visibleDateUnix r) /\
  at_index (visibleDatesArray env) (dayIndex + column) = Some (dt_unix dt) /\
  dt_unix dt <> 0%Z /\
  (0 < columnWidth env ->
   inject_Z column * columnWidth env <= pos_x position /\
   pos_x position < (inject_Z column + 1) * columnWidth env) /\
  (0 < minuteHeight env ->
   (dt_minutes dt - start env) * minuteHeight env <= pos_y position /\
   pos_y position < (dt_minutes dt - start env + 1) * minuteHeight env).
Proof.
  unfold getDateByOffset. cbv zeta.
  destruct (Z.eqb_spec (indexOf (visibleDatesArray env) (visibleDateUnix r)) (-1))
    as [|Hidx]; [discriminate|].
  destruct (indexOf_found _ _ Hidx) as [Hrange Hcur].
  remember (Qfloor (pos_y position / minuteHeight env)) as slot eqn:Hslot.
  destruct (at_index (visibleDatesArray env)
              (indexOf (visibleDatesArray env) (visibleDateUnix r)
               + columnIndex env position)) as [d|] eqn:Hat; simpl;
    [|discriminate].
  destruct (Z.eqb_spec d 0) as [->|Hd]; simpl; [discriminate|].
  intros [= <-]. cbn [dt_unix dt_minutes].
  split; [lia|]. split; [exact Hcur|]. split; [reflexivity|]. split; [exact Hd|].
  split.
  - intros Hw. unfold columnIndex. apply floor_cell. exact Hw.
  - intros Hm. pose proof (floor_cell (pos_y position) (minuteHeight env) Hm) as [Ha Hb].
    rewrite <- Hslot in Ha, Hb. set (f := inject_Z slot) in *.
    split.
    + apply Qle_trans with (f * minuteHeight env); [|exact Ha].
      apply Qle_lteq. right. ring.
    + apply Qlt_le_trans with ((f + 1) * minuteHeight env); [exact Hb|].
      apply Qle_lteq. right. ring.
Qed.

Lemma getDateByOffset_sound_witness :
  (130 - start sample_env) * minuteHeight sample_env <= 130 + (1 # 2) /\
  130 + (1 # 2) < (130 - start sample_env + 1) * minuteHeight sample_env.
Proof.
  refine (proj2 (proj2 (proj2 (proj2 (proj2
    (getDateByOffset_sound sample_env sample_refs
       {| pos_x := 70; pos_y := 130 + (1 # 2) |}
       {| dt_unix := 172800000; dt_minutes := 130 |} _))))) _).
  - vm_compute. reflexivity.
  - evaluate.
Defined.

(** *** Hit testing, continued *)

(** X16. [getEventByOffset] returns a clone of the first event, in the
    order of the day's list, whose band contains the coordinate: events
    listed before it that miss are skipped, events after it are not
    looked at. The clone is a new object with the event's fields and no
    [_internal]. *)
Theorem getEventByOffset_first_hit (dateTimeToISOString : DateTime -> string)
    (eventsRef : option (string -> option (list loc)))
    (env : Env) (r : Refs) (h : heap) (position : Position)
    (date : DateTime) (before after : list loc) (l : loc) (o : EventObj)
    (i : EventItem.Internal) :
  getDateByOffset env r position = Some date ->
  eventsByDate dateTimeToISOString eventsRef date = before ++ l :: after ->
  (forall k, k ∈ before ->
     exists ok ik, h !! k = Some ok /\ _internal ok = Some ik /\
                   ~ in_band (columnWidth env) (targetX env position) ik) ->
  h !! l = Some o -> _internal o = Some i ->
  in_band (columnWidth env) (targetX env position) i ->
  getEventByOffset dateTimeToISOString eventsRef env r h position
  = Normal (<[fresh (dom h) := stripped o]> h, Some (fresh (dom h))).
Proof.
  intros Hdate Hevents Hbefore Hl Hi Hband.
  unfold getEventByOffset. rewrite Hdate, Hevents. clear Hevents.
  induction before as [|k before IH]; simpl.
  - rewrite Hl. simpl. rewrite Hi.
    rewrite (proj2 (hit_in_band _ _ _) Hband).
    unfold spread. rewrite Hl. f_equal. f_equal.
    unfold delete_internal. apply map_eq. intros j.
    destruct (decide (j = fresh (dom h))) as [->|Hne].
    + rewrite lookup_alter_eq, !lookup_insert_eq. reflexivity.
    + rewrite lookup_alter_ne, !lookup_insert_ne by congruence. reflexivity.
  - destruct (Hbefore k ltac:(left)) as (ok & ik & Hk & Hik & Hmiss).
    rewrite Hk. simpl. rewrite Hik.
    destruct (hit (columnWidth env) (targetX env position) ik) eqn:Hhit.
    + apply hit_in_band in Hhit. contradiction.
    + apply IH. intros k' Hk'. apply Hbefore. right. exact Hk'.
Qed.

Lemma getEventByOffset_first_hit_witness :
  getEventByOffset sample_iso pair_eventsRef sample_env sample_refs pair_heap
    {| pos_x := 25; pos_y := 100 |}
  = Normal (<[fresh (dom pair_heap) := stripped sample_object]> pair_heap,
            Some (fresh (dom pair_heap))).
Proof.
  eapply (getEventByOffset_first_hit sample_iso pair_eventsRef sample_env sample_refs
            pair_heap {| pos_x := 25; pos_y := 100 |} _ [] [2%positive] 1%positive).
  - vm_compute. reflexivity.
  - reflexivity.
  - intros k Hk. inversion Hk.
  - reflexivity.
  - reflexivity.
  - evaluate.
Defined.







(** *** zoom, continued *)

Lemma clampValues_inside (value lo hi : Q) :
  lo <= value -> value <= hi -> clampValues value lo hi == value.
Proof.
  intros Hlo Hhi. unfold clampValues.
  rewrite (Q.min_l _ _ Hhi). apply Q.max_r. exact Hlo.
Qed.

(** X18. With [clampValues] keeping its result between ordered bounds
    and [minTimeIntervalHeight <= maxTimeIntervalHeight], the timeline
    height after any [zoom] is at most [maxTimelineHeight + 1] and at
    least the height at [minTimeIntervalHeight]; at the largest interval
    height it is [maxTimelineHeight + 1], one more than
    [maxTimelineHeight]. *)
Theorem timeline_after_zoom (clamp : Q -> Q -> Q -> Q) (a : TimeAxis) (ze : ZoomEnv)
    (props : option ZoomProps) (sv : Shared) :
  (forall v lo hi, lo <= hi -> lo <= clamp v lo hi /\ clamp v lo hi <= hi) ->
  minTimeIntervalHeight ze <= maxTimeIntervalHeight ze ->
  let after := fst (zoom clamp ze props sv) in
  timelineHeight a after <= maxTimelineHeight a ze + 1 /\
  inject_Z (Z.of_nat (totalSlots a)) * minTimeIntervalHeight ze + 1 + extraHeight a
  <= timelineHeight a after /\
  (timeIntervalHeight after == maxTimeIntervalHeight ze ->
   timelineHeight a after == maxTimelineHeight a ze + 1).
Proof.
  intros Hclamp Hbounds. cbv zeta.
  unfold timelineHeight, maxTimelineHeight, zoom, clampedHeight. cbn [fst timeIntervalHeight].
  destruct (Hclamp (newHeight ze props sv) _ _ Hbounds) as [Hlo Hhi].
  set (h' := clamp (newHeight ze props sv) (minTimeIntervalHeight ze)
               (maxTimeIntervalHeight ze)) in *.
  assert (Hn : 0 <= inject_Z (Z.of_nat (totalSlots a))).
  { change 0 with (inject_Z 0). rewrite <- Zle_Qle. lia. }
  set (n := inject_Z (Z.of_nat (totalSlots a))) in *.
  split; [nra|]. split; [nra|]. intros ->. ring.
Qed.

Lemma timeline_after_zoom_witness :
  timelineHeight sample_axis (fst (zoom clampValues sample_zoomEnv both_props sample_shared))
  <= maxTimelineHeight sample_axis sample_zoomEnv + 1.
Proof.
  refine (proj1 (timeline_after_zoom clampValues sample_axis sample_zoomEnv both_props
                   sample_shared clampValues_range _)).
  evaluate.
Defined.

(** X19. Zooming by [scale] and then by [1 / scale] restores the
    interval height and the scroll offset, when neither height is
    clamped ([clampValues] returning a value within bounds unchanged)
    and the vertical list has taken the height and offset of the first
    zoom in between. *)
Theorem zoom_round_trip (clamp : Q -> Q -> Q -> Q) (ze : ZoomEnv) (sv sv1 : Shared)
    (s : Q) :
  let there := zoom clamp ze (Some {| scale := Some s; height := None |}) sv in
  let back := zoom clamp ze (Some {| scale := Some (/ s); height := None |}) sv1 in
  (forall v lo hi, lo <= v -> v <= hi -> clamp v lo hi == v) ->
  ~ s == 0 -> ~ timeIntervalHeight sv == 0 ->
  minTimeIntervalHeight ze <= timeIntervalHeight sv ->
  timeIntervalHeight sv <= maxTimeIntervalHeight ze ->
  minTimeIntervalHeight ze <= timeIntervalHeight sv * s ->
  timeIntervalHeight sv * s <= maxTimeIntervalHeight ze ->
  timeIntervalHeight sv1 == timeIntervalHeight (fst there) ->
  (forall c, c ∈ snd there -> offsetY sv1 == sc_y c) ->
  timeIntervalHeight (fst back) == timeIntervalHeight sv /\
  (forall c, c ∈ snd back -> sc_y c == offsetY sv).
Proof.
  cbv zeta. intros Hclamp Hs Hh Hlo Hhi Hlo' Hhi' Hh1 Ho1.
  assert (Hinv : Qeq_bool (/ s) 0 = false).
  { destruct (Qeq_bool (/ s) 0) eqn:E; [|reflexivity].
    apply Qeq_bool_eq in E. exfalso. apply Hs.
    rewrite <- (Qinv_involutive s), E. reflexivity. }
  assert (Hsb : Qeq_bool s 0 = false).
  { destruct (Qeq_bool s 0) eqn:E; [|reflexivity].
    apply Qeq_bool_eq in E. contradiction. }
  unfold zoom, clampedHeight, newHeight, scale_given in *.
  cbn [mbind option_bind scale height fst snd timeIntervalHeight offsetY default] in *.
  rewrite Hsb in *. rewrite Hinv.
  set (h1 := clamp (timeIntervalHeight sv * s) (minTimeIntervalHeight ze)
               (maxTimeIntervalHeight ze)) in *.
  assert (Eh1 : h1 == timeIntervalHeight sv * s) by (apply Hclamp; assumption).
  specialize (Ho1 _ ltac:(left)). cbn [sc_y] in Ho1.
  assert (Eback : timeIntervalHeight sv1 * / s == timeIntervalHeight sv).
  { rewrite Hh1, Eh1. field. exact Hs. }
  assert (Eh2 : clamp (timeIntervalHeight sv1 * / s) (minTimeIntervalHeight ze)
                  (maxTimeIntervalHeight ze) == timeIntervalHeight sv).
  { rewrite Hclamp; [exact Eback | rewrite Eback; exact Hlo | rewrite Eback; exact Hhi]. }
  split; [exact Eh2|].
  intros c Hc. apply list_elem_of_singleton in Hc. subst c. cbn [sc_y].
  rewrite Eh2, Ho1, Hh1.
  assert (Hh1nz : ~ h1 == 0).
  { rewrite Eh1. intros E. apply Qmult_integral in E. tauto. }
  field. split; assumption.
Qed.

Lemma zoom_round_trip_witness :
  timeIntervalHeight
    (fst (zoom clampValues wide_zoomEnv (Some {| scale := Some (/ 2); height := None |})
            {| timeIntervalHeight := 100; offsetY := 400 |}))
  == timeIntervalHeight sample_shared.
Proof.
  refine (proj1 (zoom_round_trip clampValues wide_zoomEnv sample_shared
                   {| timeIntervalHeight := 100; offsetY := 400 |} 2
                   clampValues_inside _ _ _ _ _ _ _ _)); try evaluate.
  intros c Hc. apply list_elem_of_singleton in Hc. subst c. evaluate.
Defined.

(** *** Widths *)

(** X20. When some day is shown, the day columns take exactly the
    width left of the hour column:
    [numberOfDays * columnWidth = width - hourWidth]. In single-day mode
    the grid is one column plus the hour column wide; otherwise, when as
    many days are shown as the week has visible days, one page of
    [columns] columns is as wide as the grid. *)
Theorem columns_fill_grid (w : Widths) (n : option Q) (hide : list Z) (d : Days) :
  render_days n hide = Normal d ->
  ~ numberOfDays d == 0 ->
  numberOfDays d * derive_columnWidth w d == calendarLayout_width w - hourWidth w /\
  (isSingleDay d = true ->
   derive_calendarGridWidth w d == derive_columnWidth w d + hourWidth w) /\
  (isSingleDay d = false -> numberOfDays d == inject_Z (daysToShow d) ->
   derive_columnWidth w d * inject_Z (columns d) == derive_calendarGridWidth w d).
Proof.
  intros Hd Hnz.
  destruct (render_days_invariants n hide d Hd) as (_ & _ & _ & _ & Hsingle & Hcols).
  unfold derive_columnWidth, derive_calendarGridWidth.
  split; [field; exact Hnz|]. split.
  - intros Hs. rewrite Hs. apply Hsingle in Hs. rewrite Hs. field.
  - intros Hs Hall. rewrite Hcols, Hs, <- Hall. field. exact Hnz.
Qed.

Lemma columns_fill_grid_witness :
  numberOfDays sample_days * derive_columnWidth sample_widths sample_days
  == calendarLayout_width sample_widths - hourWidth sample_widths.
Proof.
  refine (proj1 (columns_fill_grid sample_widths None [] sample_days _ _)).
  - reflexivity.
  - evaluate.
Defined.

End ContainerMore.

(** ** The container and the event item together *)

Section Together.
Import CalendarContainer ContainerRest.
Local Open Scope Q_scope.

(** X22. For an event that starts inside the grid and is no longer
    than it, drawn with the container's minute height and column width,
    [getSizeByDuration(duration)] has the height [EventItem] draws; for
    a lone event its width is the event's width plus
    [rightEdgeSpacing]. *)
Theorem getSizeByDuration_matches_event (env : Env) (b : EventItem.Body)
    (p : EventItem.Props) :
  EventItem.minuteHeight b == minuteHeight env ->
  EventItem.columnWidthAnim b == columnWidth env ->
  EventItem.start b <= default 0 (EventItem.startMinutes (EventItem.event p)) ->
  EventItem.duration (EventItem.event p) <= EventItem.end_ b - EventItem.start b ->
  size_height (getSizeByDuration env (EventItem.duration (EventItem.event p)))
  == EventItem.eventHeight b p /\
  (EventItem.total (EventItem.event p) == 1 ->
   EventItem.columnSpan (EventItem.event p) == 1 ->
   size_width (getSizeByDuration env (EventItem.duration (EventItem.event p)))
   == EventItem.eventWidth b p + EventItem.rightEdgeSpacing b).
Proof.
  intros Hmh Hcw Hstart Hfits.
  unfold getSizeByDuration. cbv zeta. cbn [size_height size_width].
  split.
  - unfold EventItem.eventHeight.
    destruct (data_cases b p) as [(Hlt & _) | (_ & Hd & _)]; cbv zeta in *; [lra|].
    rewrite Hd, (Q.min_l _ _ Hfits), Hmh. reflexivity.
  - intros Ht Hs. rewrite (eventWidth_single_span b p 1 Ht Hs), Hcw. field.
Qed.

Lemma getSizeByDuration_matches_event_witness :
  size_height (getSizeByDuration sample_env 60)
  == EventItem.eventHeight sample_env_body (EventItem.sample_event 1 0).
Proof.
  refine (proj1 (getSizeByDuration_matches_event sample_env sample_env_body
                   (EventItem.sample_event 1 0) _ _ _ _)); evaluate.
Defined.

(** X23. [zoom] rescales an event's top by the same factor as the
    interval height; an event whose top is at the scroll offset before
    the zoom has its top at the offset [zoom] scrolls to. *)
Theorem zoom_keeps_event_in_view (clamp : Q -> Q -> Q -> Q) (a : TimeAxis)
    (ze : ZoomEnv) (props : option ZoomProps) (sv : Shared)
    (b b' : EventItem.Body) (p : EventItem.Props) :
  EventItem.same_listed_inputs b p b' p ->
  EventItem.minuteHeight b == derive_minuteHeight a sv ->
  EventItem.minuteHeight b' == derive_minuteHeight a (fst (zoom clamp ze props sv)) ->
  ~ timeIntervalHeight sv == 0 ->
  EventItem.top b' p * timeIntervalHeight sv
  == EventItem.top b p * timeIntervalHeight (fst (zoom clamp ze props sv)) /\
  (EventItem.top b p == offsetY sv ->
   forall c, c ∈ snd (zoom clamp ze props sv) -> EventItem.top b' p == sc_y c).
Proof.
  intros Hsame Hmh Hmh' Hnz.
  destruct (data_compat _ _ _ _ Hsame) as (_ & Hn & _).
  unfold EventItem.top, derive_minuteHeight, zoom in *.
  cbn [fst snd timeIntervalHeight] in *.
  set (h' := clampedHeight clamp ze props sv) in *.
  rewrite Hmh, Hmh', <- Hn.
  set (ns := EventItem.newStart (EventItem.data b p)) in *.
  split.
  - unfold Qdiv. ring.
  - intros Htop c Hc. apply list_elem_of_singleton in Hc. subst c. cbn [sc_y].
    rewrite <- Htop, <- ?Hn, ?Hmh', ?Hmh. unfold Qdiv.
    set (per := / timeInterval a). field. exact Hnz.
Qed.

Lemma zoom_keeps_event_in_view_witness :
  EventItem.top EventItem.zoomed_body (EventItem.sample_event 1 0) == 72000 # 60.
Proof.
  refine (proj2 (zoom_keeps_event_in_view clampValues sample_axis wide_zoomEnv both_props
                   hour_shared EventItem.sample_body EventItem.zoomed_body
                   (EventItem.sample_event 1 0) _ _ _ _) _
            {| sc_ref := verticalListRef; sc_x := 0; sc_y := 72000 # 60;
               sc_animated := true |} _); try evaluate.
  left.
Defined.

End Together.
